(** * demo.c: the AXI DMA transfer demonstration, embedded and verified

    The program of [axidmaapp/files/demo.c] is embedded function by
    function: [print_usage], [parse_args], [rapidio_taks_rec] and [main].
    Calls that leave the file (the DMA library, libc, pthreads) are recorded
    as events of a trace; what they answer is read from a [world]. *)

From Stdlib Require Import ZArith List Ascii String HexString.
From stdpp Require Import base list strings pretty.
Import ListNotations.

Local Open Scope string_scope.
Local Open Scope list_scope.
Local Open Scope Z_scope.

(** ** Loops

    [for (i = lo; ...; i++)] run for [n] rounds: the body sees the counter
    and the state. *)

Fixpoint for_loop {S : Type} (n : nat) (i : Z) (body : Z → S → S) (s : S) : S :=
  match n with
  | O => s
  | Datatypes.S n' => for_loop n' (i + 1) body (body i s)
  end.

(** ** The staging buffers

    [static unsigned char rbuffer[2048] = {0}, sbuffer[2048] = {0};]
    an [unsigned char] is a [Z] in [0, 256); storing an [int] into one
    keeps its low eight bits. *)

Definition MAXLENGTH : Z := 2048.

Abbreviation buffer := (list Z).

Definition to_uchar (v : Z) : Z := v mod 256.

Definition zero_buffer : buffer := replicate (Z.to_nat MAXLENGTH) 0.

(** [for(i = 0;i < 2000;i++) { sbuffer[i]=i; }] *)
Definition sbuffer_init (sbuffer : buffer) : buffer :=
  for_loop 2000 0 (λ i b, <[Z.to_nat i := to_uchar i]> b) sbuffer.

(** [rbuffer] after a receive wrote [data] at its start: the bytes written
    replace the front of the array, the rest of its 2048 bytes stays. *)
Definition store (data : list Z) (rbuffer : buffer) : buffer :=
  take (Z.to_nat MAXLENGTH)
       (map to_uchar data ++ drop (length data) rbuffer).

(** ** Text

    Rocq strings have no escapes: [nl] and [tab] are the characters that C
    writes as backslash-n and backslash-t. *)

Definition nl : string := String "010" EmptyString.
Definition tab : string := String "009" EmptyString.

(** [printf("%d", v)] *)
Definition printf_d (v : Z) : string := pretty v.

(** [printf("%x", v)] for an unsigned value, lower-case digits. *)
Definition printf_x (v : Z) : string :=
  match Z.to_N v with
  | N0 => "0"
  | Npos p => HexString.Raw.of_pos p EmptyString
  end.

(** [printf("%02x", v)]: at least two digits, padded with zeros on the
    left. *)
Definition printf_02x (v : Z) : string :=
  let digits := printf_x v in
  if (String.length digits <? 2)%nat then "0" +:+ digits else digits.

(** ** int

    An [int] is a [Z] between [int_min] and [int_max].  [neg_int] is the
    unary minus of C on an [int]: the standard leaves [-INT_MIN] undefined;
    the machine negates in two's complement, and that is what is embedded:
    the result wraps around into the range. *)
Definition int_min : Z := -2147483648.
Definition int_max : Z := 2147483647.

Definition wrap_int (v : Z) : Z := (v + 2147483648) mod 4294967296 - 2147483648.

Definition neg_int (v : Z) : Z := wrap_int (- v).

(** ** errno.h (Linux) *)

Definition EINVAL : Z := 22.
Definition ENODEV : Z := 19.

(** ** Types of the DMA library headers

    [axidmaapp.h] is not part of the file; what follows is the part of its
    declarations that demo.c uses. *)

(** [axidma_dev_t]: a pointer, [NULL] when initialisation failed. *)
Definition axidma_dev_t := Z.
Definition NULL : axidma_dev_t := 0.

(** [array_t]: a length [len] and [len] integers [data]; embedded as the
    list of its elements. *)
Abbreviation array_t := (list Z).
Definition len (a : array_t) : Z := Z.of_nat (length a).

(** [struct dma_transfer], the fields demo.c reads or writes. *)
Record dma_transfer := Build_dma_transfer {
  input_channel : Z;
  input_size : Z;
  output_fd : Z;
  output_channel : Z;
  output_size : Z
}.

(** [memset(&trans, 0, sizeof(trans))] *)
Definition trans_zero : dma_transfer := Build_dma_transfer 0 0 0 0 0.

Definition set_input_channel (v : Z) (t : dma_transfer) : dma_transfer :=
  Build_dma_transfer v (input_size t) (output_fd t) (output_channel t) (output_size t).
Definition set_input_size (v : Z) (t : dma_transfer) : dma_transfer :=
  Build_dma_transfer (input_channel t) v (output_fd t) (output_channel t) (output_size t).
Definition set_output_channel (v : Z) (t : dma_transfer) : dma_transfer :=
  Build_dma_transfer (input_channel t) (input_size t) (output_fd t) v (output_size t).
Definition set_output_size (v : Z) (t : dma_transfer) : dma_transfer :=
  Build_dma_transfer (input_channel t) (input_size t) (output_fd t) (output_channel t) v.

(** ** Helpers of util.h and conversion.h

    Their code is not part of the file; demo.c is embedded over any
    implementation of them.  [parse_int] and [parse_double] answer the
    status they return and the value they leave behind their pointer. *)
Record util := Build_util {
  double : Type;
  parse_int : ascii → string → Z * Z;
  parse_double : ascii → string → Z * double;
  MIB_TO_BYTE : double → Z;
  BYTE_TO_MIB : Z → double;
  printf_4f : double → string
}.

(** ** Events and answers *)

Inductive stream := stdout | stderr.

(** A call that leaves demo.c, with the arguments that matter and, where the
    program looks at it, what the call returned. *)
Inductive event :=
| Fprintf (f : stream) (text : string)
| Call_axidma_config
| Call_XDma_Out32 (offset value : Z)
| Call_axidma_init (ret : axidma_dev_t)
| Call_axidma_get_dma_tx (dev : axidma_dev_t)
| Call_axidma_get_dma_rx (dev : axidma_dev_t)
| Call_axidma0send (dev : axidma_dev_t) (trans : dma_transfer) (buf : buffer) (ret : Z)
| Call_axidma0read (dev : axidma_dev_t) (trans : dma_transfer) (ret : Z)
| Call_sleep (seconds : Z)
| Call_pthread_create (ret : Z)
| Call_pthread_detach
| Call_pthread_join
| Call_axidma_destroy (dev : axidma_dev_t)
| Call_close (fd : Z) (ret : Z).

(** What successive calls of libc's [getopt] yield on one argument vector:
    the option characters with the [optarg] of each, in order, until it
    returns -1, and the value of [optind] from then on.  What getopt
    itself writes to standard error about an option it does not know is
    not recorded. *)
Record getopt_run := Build_getopt_run {
  g_options : list (ascii * string);
  g_optind : Z
}.

(** The answers one task gets from outside: libc, the DMA library, the
    thread library.  [axidma0send k] and [axidma0read k] answer the k-th
    call of the task; a receive answers its return value and the bytes it
    wrote into the buffer. *)
Record world := Build_world {
  getopt : Z → list string → getopt_run;
  axidma_init : axidma_dev_t;
  axidma_get_dma_tx : axidma_dev_t → array_t;
  axidma_get_dma_rx : axidma_dev_t → array_t;
  axidma0send : nat → Z;
  axidma0read : nat → Z * list Z;
  pthread_create : Z;
  close : Z → Z
}.

(** How a function ended. [Running]: still inside its loop after the
    rounds looked at. [Undefined]: it read outside an array. *)
Inductive outcome :=
| Returned (rc : Z)
| Exited (status : Z)
| Aborted
| Running
| Undefined.

Record run := Build_run {
  out : outcome;
  events : list event
}.

(** Events that happen before the rest of a run. *)
Definition after (evs : list event) (r : run) : run :=
  Build_run (out r) (evs ++ events r).

(** ** print_usage *)

Definition usage_line : string :=
  "Usage: axidma_transfer  "
  +:+ "[-t <DMA tx channel>] [-r <DMA rx channel>] [-s <Output file size>"
  +:+ " | -o <Output file size>]." +:+ nl.

Definition help_lines : list string :=
  [ tab +:+ "-t <DMA tx channel>:" +:+ tab +:+ "The device id of the DMA channel "
    +:+ "to use for transmitting the file. Default is to use the lowest "
    +:+ "numbered channel available." +:+ nl;
    tab +:+ "-r <DMA rx channel>:" +:+ tab +:+ "The device id of the DMA channel "
    +:+ "to use for receiving the data from the PL fabric. Default is to "
    +:+ "use the lowest numbered channel available." +:+ nl;
    tab +:+ "-s <Output file size>:" +:+ tab +:+ "The size of the output file in "
    +:+ "bytes. This is an integer value that must be at least the number "
    +:+ "of bytes received back. By default, this is the same as the size "
    +:+ "of the input file." +:+ nl;
    tab +:+ "-o <Output file size>:" +:+ tab +:+ "The size of the output file in "
    +:+ "Mibs. This is a floating-point value that must be at least the "
    +:+ "number of bytes received back. By default, this is the same "
    +:+ "the size of the input file." +:+ nl ].

Definition print_usage (help : bool) : list event :=
  let stream := if help then stdout else stderr in
  Fprintf stream usage_line ::
  (if negb help then [] else map (Fprintf stream) help_lines).

(** ** parse_args *)

(** The state in which the option loop stops: [p_exit] is the way it left
    the function from inside the loop ([return] or [exit]), if it did. *)
Record parsed := Build_parsed {
  p_exit : option outcome;
  p_trans : dma_transfer;
  o_specified : bool;
  s_specified : bool;
  p_events : list event
}.

(** [while ((option = getopt(argc, argv, "t:r:s:o:h")) != (char)-1)]
    with its [switch], over the options getopt yields. *)
Fixpoint getopt_loop (U : util) (options : list (ascii * string))
    (trans : dma_transfer) (o_spec s_spec : bool) : parsed :=
  match options with
  | [] => Build_parsed None trans o_spec s_spec []
  | (opt, optarg) :: rest =>
      if Ascii.eqb opt "t" then
        let (rc, int_arg) := parse_int U opt optarg in
        if rc <? 0
        then Build_parsed (Some (Returned rc)) trans o_spec s_spec (print_usage false)
        else getopt_loop U rest (set_input_channel int_arg trans) o_spec s_spec
      else if Ascii.eqb opt "r" then
        let (rc, int_arg) := parse_int U opt optarg in
        if rc <? 0
        then Build_parsed (Some (Returned rc)) trans o_spec s_spec (print_usage false)
        else getopt_loop U rest (set_output_channel int_arg trans) o_spec s_spec
      else if Ascii.eqb opt "s" then
        let (rc, int_arg) := parse_int U opt optarg in
        if rc <? 0
        then Build_parsed (Some (Returned rc)) trans o_spec s_spec (print_usage false)
        else getopt_loop U rest (set_output_size int_arg trans) o_spec true
      else if Ascii.eqb opt "o" then
        let (rc, double_arg) := parse_double U opt optarg in
        if rc <? 0
        then Build_parsed (Some (Returned rc)) trans o_spec s_spec (print_usage false)
        else getopt_loop U rest (set_output_size (MIB_TO_BYTE U double_arg) trans) true s_spec
      else if Ascii.eqb opt "h" then
        Build_parsed (Some (Exited 0)) trans o_spec s_spec (print_usage true)
      else
        Build_parsed (Some (Returned (- EINVAL))) trans o_spec s_spec (print_usage false)
  end.

Definition pair_error : string :=
  "Error: Either both -t and -r must be specified, or " +:+ "neither." +:+ nl.
Definition exclusive_error : string :=
  "Error: Only one of -s and -o can be specified." +:+ nl.
Definition too_many_error : string :=
  "Error: Too many command line arguments." +:+ nl.

(** [parse_args(argc, argv, &trans.input_channel, &trans.output_channel,
    &trans.output_size)]: the run and the descriptor it leaves. *)
Definition parse_args (U : util) (W : world) (argc : Z) (argv : list string)
    (trans : dma_transfer) : run * dma_transfer :=
  let trans := set_input_channel (-1) trans in
  let trans := set_output_channel (-1) trans in
  let trans := set_output_size (-1) trans in
  let g := getopt W argc argv in
  let p := getopt_loop U (g_options g) trans false false in
  let trans := p_trans p in
  match p_exit p with
  | Some o => (Build_run o (p_events p), trans)
  | None =>
      if xorb (input_channel trans =? -1) (output_channel trans =? -1) then
        (Build_run (Returned (- EINVAL))
           (p_events p ++ Fprintf stderr pair_error :: print_usage false), trans)
      else if s_specified p && o_specified p then
        (Build_run (Returned (- EINVAL))
           (p_events p ++ Fprintf stderr exclusive_error :: print_usage false), trans)
      else if g_optind g <? argc - 2 then
        (Build_run (Returned (- EINVAL))
           (p_events p ++ Fprintf stderr too_many_error :: print_usage false), trans)
      else (Build_run (Returned 0) (p_events p), trans)
  end.

(** ** The cleanup labels, the same in [main] and [rapidio_taks_rec] *)

(** [close_output: assert(close(trans.output_fd) == 0); ret: return rc;] *)
Definition close_output (W : world) (trans : dma_transfer) (rc : Z) : run :=
  let r := close W (output_fd trans) in
  Build_run (if r =? 0 then Returned rc else Aborted)
            [Call_close (output_fd trans) r].

(** [destroy_axidma: axidma_destroy(axidma_dev);] and on to [close_output]. *)
Definition destroy_axidma (W : world) (axidma_dev : axidma_dev_t)
    (trans : dma_transfer) (rc : Z) : run :=
  after [Call_axidma_destroy axidma_dev] (close_output W trans rc).

(** ** Channel resolution

    [if (trans.input_channel == -1 && trans.output_channel == -1)
       { trans.input_channel = tx_chans->data[0];
         trans.output_channel = rx_chans->data[0]; }]
    [None] when [data[0]] is read from an array that has no element. *)
Definition resolve_channels (trans : dma_transfer) (tx_chans rx_chans : array_t)
    : option dma_transfer :=
  if (input_channel trans =? -1) && (output_channel trans =? -1) then
    t0 ← tx_chans !! 0%nat;
    r0 ← rx_chans !! 0%nat;
    Some (set_output_channel r0 (set_input_channel t0 trans))
  else Some trans.

(** Lines 221-263 of [rapidio_taks_rec] and 333-375 of [main], the same
    text: initialise the device, ask for the channels, resolve, and go on
    with [next]. *)
Definition device_stage (W : world) (trans : dma_transfer)
    (next : axidma_dev_t → dma_transfer → run) : run :=
  let axidma_dev := axidma_init W in
  after [Call_axidma_init axidma_dev] (
  if axidma_dev =? NULL then
    after [Fprintf stderr ("Error: Failed to initialize the AXI DMA device." +:+ nl)]
          (close_output W trans 1)
  else
    let tx_chans := axidma_get_dma_tx W axidma_dev in
    after [Fprintf stdout ("Succeed to initialize the AXI DMA device." +:+ nl);
           Call_axidma_get_dma_tx axidma_dev] (
    if len tx_chans <? 1 then
      after [Fprintf stderr ("Error: No transmit channels were found." +:+ nl)]
            (destroy_axidma W axidma_dev trans (- ENODEV))
    else
      let rx_chans := axidma_get_dma_rx W axidma_dev in
      after [Call_axidma_get_dma_rx axidma_dev] (
      if len rx_chans <? 1 then
        after [Fprintf stderr ("Error: No receive channels were found." +:+ nl)]
              (destroy_axidma W axidma_dev trans (- ENODEV))
      else
        match resolve_channels trans tx_chans rx_chans with
        | None => Build_run Undefined []
        | Some trans => next axidma_dev trans
        end))).

(** ** main *)

Definition transfer_info (U : util) (trans : dma_transfer) : list event :=
  [ Fprintf stdout ("AXI DMA File Transfer Info:" +:+ nl);
    Fprintf stdout (tab +:+ "Transmit Channel: " +:+ printf_d (input_channel trans) +:+ nl);
    Fprintf stdout (tab +:+ "Receive Channel: " +:+ printf_d (output_channel trans) +:+ nl);
    Fprintf stdout (tab +:+ "Input Data Size: "
                    +:+ printf_4f U (BYTE_TO_MIB U (input_size trans)) +:+ " MiB" +:+ nl);
    Fprintf stdout (tab +:+ "Output Data Size: "
                    +:+ printf_4f U (BYTE_TO_MIB U (output_size trans)) +:+ " MiB" +:+ nl +:+ nl) ].

(** Lines 378-469: the summary, the three sends with their pauses, the
    receive thread, the cleanup.  [rc] is overwritten by every send and
    looked at once, after [pthread_detach]: [rc = (rc < 0) ? -rc : 0],
    an [int] negation. *)
Definition transfer_stage (U : util) (W : world) (sbuffer : buffer)
    (axidma_dev : axidma_dev_t) (trans : dma_transfer) : run :=
  let info := transfer_info U trans in
  let trans := set_input_size 1000 trans in
  let trans := set_output_size 2048 trans in
  let rc := axidma0send W 0 in
  let send1 := [ Call_axidma0send axidma_dev trans sbuffer rc;
                 Fprintf stdout ("success send axidma0" +:+ nl);
                 Call_sleep 5 ] in
  let trans := set_input_size 2000 trans in
  let rc := axidma0send W 1 in
  let send2 := [ Call_sleep 5; Call_axidma0send axidma_dev trans sbuffer rc ] in
  let trans := set_input_size 1800 trans in
  let rc := axidma0send W 2 in
  let send3 := [ Call_sleep 5; Call_axidma0send axidma_dev trans sbuffer rc ] in
  let error := pthread_create W in
  after (info ++ send1 ++ send2 ++ send3 ++ [Call_pthread_create error]) (
  if negb (error =? 0) then
    Build_run (Returned (-1)) [Fprintf stdout ("pthreadrx_create fail" +:+ nl)]
  else
    after [Call_pthread_detach] (
    let rc := if rc <? 0 then neg_int rc else 0 in
    destroy_axidma W axidma_dev trans rc)).

(** Lines 204-219 and 316-331, the same text in both functions:
    configure, fill [sbuffer], parse the arguments; on with [next] when
    [parse_args] did not return a negative code. *)
Definition setup (U : util) (W : world) (argc : Z) (argv : list string)
    (next : buffer → dma_transfer → run) : run :=
  let sbuffer := sbuffer_init zero_buffer in
  let (args, trans) := parse_args U W argc argv trans_zero in
  after (Call_axidma_config :: Call_XDma_Out32 4 1 :: events args) (
  match out args with
  | Returned rc =>
      if rc <? 0 then Build_run (Returned 1) [] else next sbuffer trans
  | o => Build_run o []
  end).

Definition main (U : util) (W : world) (argc : Z) (argv : list string) : run :=
  setup U W argc argv (λ sbuffer trans,
    device_stage W trans (transfer_stage U W sbuffer)).

(** ** rapidio_taks_rec *)

(** [for(i = 0;i<(rec_len);i++) { if(i%16 == 0) printf("\n");
      printf("0x%02x ",rbuffer[i]); }]
    [None] when [rbuffer[i]] lies outside the array. *)
Definition dump_byte (rbuffer : buffer) (i : Z) (acc : option (list event))
    : option (list event) :=
  evs ← acc;
  b ← rbuffer !! Z.to_nat i;
  Some (evs ++ (if i mod 16 =? 0 then [Fprintf stdout nl] else [])
            ++ [Fprintf stdout ("0x" +:+ printf_02x b +:+ " ")]).

Definition hex_dump (rec_len : Z) (rbuffer : buffer) : option (list event) :=
  for_loop (Z.to_nat rec_len) 0 (dump_byte rbuffer) (Some []).

(** [while(1)], [n] rounds of it; [k] counts the receives made so far. *)
Fixpoint receive_loop (W : world) (axidma_dev : axidma_dev_t)
    (trans : dma_transfer) (n : nat) (k : nat) (rbuffer : buffer) : run :=
  match n with
  | O => Build_run Running []
  | S n' =>
      let (rec_len, data) := axidma0read W k in
      let rbuffer := store data rbuffer in
      let head := [ Call_axidma0read axidma_dev trans rec_len;
                    Fprintf stdout (nl +:+ "rec_len = 0x" +:+ printf_d rec_len +:+ nl) ] in
      match hex_dump rec_len rbuffer with
      | None => Build_run Undefined head
      | Some dump =>
          after (head ++ dump) (receive_loop W axidma_dev trans n' (S k) rbuffer)
      end
  end.

(** The receive task, looked at for [n] rounds of its loop.  The code
    after the loop ([pthread_exit] and a second copy of the cleanup) is
    reached only through the [goto]s before it. *)
Definition rapidio_taks_rec (U : util) (W : world) (argc : Z) (argv : list string)
    (n : nat) : run :=
  setup U W argc argv (λ sbuffer trans,
    device_stage W trans (λ axidma_dev trans,
      receive_loop W axidma_dev trans n 0 zero_buffer)).

(** ** The process

    [main] and, when [pthread_create] returned 0, the receive task.  The
    thread library starts [rapidio_taks_rec] on the single pointer [NULL]
    given to [pthread_create]: [argc] is 0 and [argv] is whatever the
    second argument register holds.  Each task gets its answers from its
    own [world]. *)
Record process := Build_process {
  primary : run;
  receiver : option run
}.

Definition spawned (r : run) : bool :=
  existsb (λ e, match e with Call_pthread_create 0 => true | _ => false end)
          (events r).

Definition run_process (U : util) (Wmain Wrec : world) (argc : Z)
    (argv argv_rec : list string) (n : nat) : process :=
  let m := main U Wmain argc argv in
  Build_process m
    (if spawned m then Some (rapidio_taks_rec U Wrec 0 argv_rec n) else None).

Definition all_events (p : process) : list event :=
  events (primary p) ++ from_option events [] (receiver p).

(** ** A getopt to run examples with

    libc's [getopt] as POSIX describes it, for the option string of
    [parse_args]: options are read from [argv[1]] onwards and stop at the
    first element that is not an option or at [--]; an option that takes a
    value finds it in the rest of its element or in the next element; an
    unknown option, or a missing value, yields [?].  (The getopt of glibc
    also moves options that stand behind other arguments to the front; on
    argument vectors whose options all come first the two agree.) *)
Module Posix.

Definition optstring : list ascii := list_ascii_of_string "t:r:s:o:h".

(** [Some true]: an option that takes a value; [Some false]: one that
    does not; [None]: not an option of [optstring]. *)
Fixpoint lookup (c : ascii) (opts : list ascii) : option bool :=
  match opts with
  | [] => None
  | o :: rest =>
      if Ascii.eqb c o && negb (Ascii.eqb c ":")
      then Some (match rest with
                 | x :: _ => Ascii.eqb x ":"
                 | [] => false
                 end)
      else lookup c rest
  end.

(** The option characters of one element after its dash.  The second
    component is the option, if any, whose value is the next element. *)
Fixpoint cluster (cs : list ascii) : list (ascii * string) * option ascii :=
  match cs with
  | [] => ([], None)
  | c :: rest =>
      match lookup c optstring with
      | None => let (r, w) := cluster rest in (("?"%char, EmptyString) :: r, w)
      | Some false => let (r, w) := cluster rest in ((c, EmptyString) :: r, w)
      | Some true =>
          match rest with
          | [] => ([], Some c)
          | _ :: _ => ([(c, string_of_list_ascii rest)], None)
          end
      end
  end.

Fixpoint scan (args : list string) (optind : Z) : getopt_run :=
  match args with
  | [] => Build_getopt_run [] optind
  | a :: rest =>
      match list_ascii_of_string a with
      | "-"%char :: c :: cs =>
          if String.eqb a "--" then Build_getopt_run [] (optind + 1)
          else
            match cluster (c :: cs) with
            | (r, None) =>
                let g := scan rest (optind + 1) in
                Build_getopt_run (r ++ g_options g) (g_optind g)
            | (r, Some c) =>
                match rest with
                | [] => Build_getopt_run (r ++ [("?"%char, EmptyString)]) (optind + 1)
                | optarg :: rest' =>
                    let g := scan rest' (optind + 2) in
                    Build_getopt_run (r ++ (c, optarg) :: g_options g) (g_optind g)
                end
            end
      | _ => Build_getopt_run [] optind
      end
  end.

(** [argv[0]] is the program's name; [argc] elements are looked at. *)
Definition getopt (argc : Z) (argv : list string) : getopt_run :=
  scan (tail (take (Z.to_nat argc) argv)) 1.

End Posix.

(** ** Helpers to run examples with

    An implementation of the helpers for whole-number arguments only (a
    value with a fraction is refused).  A [double] is kept as the number
    of bytes it stands for, that is, in units of 2^-20 MiB; the byte count
    stored into the [int] field wraps around. *)
Module Sample.

Definition digit (c : ascii) : option Z :=
  let n := Z.of_N (N_of_ascii c) in
  if (48 <=? n) && (n <=? 57) then Some (n - 48) else None.

Fixpoint digits (cs : list ascii) (acc : Z) : option Z :=
  match cs with
  | [] => Some acc
  | c :: rest => d ← digit c; digits rest (10 * acc + d)
  end.

Definition number (s : string) : option Z :=
  match list_ascii_of_string s with
  | [] => None
  | "-"%char :: c :: cs => Z.opp <$> digits (c :: cs) 0
  | cs => digits cs 0
  end.

Definition parse_int (opt : ascii) (arg_str : string) : Z * Z :=
  match number arg_str with
  | Some v => (0, v)
  | None => (- EINVAL, 0)
  end.

Definition parse_double (opt : ascii) (arg_str : string) : Z * Z :=
  match number arg_str with
  | Some v => (0, v * 1048576)
  | None => (- EINVAL, 0)
  end.

Definition pad4 (s : string) : string :=
  string_of_list_ascii
    (replicate (4 - String.length s)%nat "0"%char) +:+ s.

(** Four decimals of [d / 2^20], rounded to nearest, ties to even. *)
Definition printf_4f (d : Z) : string :=
  let a := Z.abs d * 10000 in
  let q := a / 1048576 in
  let r := a mod 1048576 in
  let q := if (524288 <? r) || ((r =? 524288) && Z.odd q) then q + 1 else q in
  (if d <? 0 then "-" else EmptyString) +:+ pretty (q / 10000) +:+ "."
    +:+ pad4 (pretty (q mod 10000)).

Definition helpers : util :=
  Build_util Z parse_int parse_double wrap_int (λ b, b) printf_4f.

(** A device with transmit channels 2, 3 and receive channels 1, 4 that
    accepts every send and answers every receive with three bytes. *)
Definition device : world :=
  Build_world Posix.getopt 7 (λ _, [2; 3]) (λ _, [1; 4])
              (λ _, 0) (λ _, (3, [161; 178; 195])) 0 (λ _, 0).

(** The same device, whose first send fails. *)
Definition device_send_fails : world :=
  Build_world Posix.getopt 7 (λ _, [2; 3]) (λ _, [1; 4])
              (λ k, match k with O => -5 | _ => 0 end)
              (λ _, (3, [161; 178; 195])) 0 (λ _, 0).

(** The answers the receive task gets: its own [axidma_init] returns
    another handle, and [getopt] has nothing left to yield. *)
Definition device_rec : world :=
  Build_world (λ _ _, Build_getopt_run [] 1) 9 (λ _, [2; 3]) (λ _, [1; 4])
              (λ _, 0) (λ _, (3, [161; 178; 195])) 0 (λ _, 0).

End Sample.

(** ** What a trace shows *)

(** The handles [axidma_init] handed out ([NULL] is none). *)
Definition acquired (evs : list event) : list axidma_dev_t :=
  omap (λ e, match e with
             | Call_axidma_init h => if h =? NULL then None else Some h
             | _ => None
             end) evs.

(** The handles given to [axidma_destroy]. *)
Definition released (evs : list event) : list axidma_dev_t :=
  omap (λ e, match e with Call_axidma_destroy h => Some h | _ => None end) evs.

(** The handles on which sends and receives were issued. *)
Definition send_devs (evs : list event) : list axidma_dev_t :=
  omap (λ e, match e with Call_axidma0send h _ _ _ => Some h | _ => None end) evs.
Definition read_devs (evs : list event) : list axidma_dev_t :=
  omap (λ e, match e with Call_axidma0read h _ _ => Some h | _ => None end) evs.

(** The sends: the byte count handed to each and the status it reported. *)
Definition sent (evs : list event) : list (Z * Z) :=
  omap (λ e, match e with
             | Call_axidma0send _ t _ r => Some (input_size t, r)
             | _ => None
             end) evs.

(** The channels each send was issued with. *)
Definition send_channels (evs : list event) : list (Z * Z) :=
  omap (λ e, match e with
             | Call_axidma0send _ t _ _ => Some (input_channel t, output_channel t)
             | _ => None
             end) evs.

(** Events of the stages before any transfer: configuration, text,
    initialisation, channel queries, cleanup. *)
Definition is_early (e : event) : bool :=
  match e with
  | Fprintf _ _ | Call_axidma_config | Call_XDma_Out32 _ _ | Call_axidma_init _
  | Call_axidma_get_dma_tx _ | Call_axidma_get_dma_rx _
  | Call_axidma_destroy _ | Call_close _ _ => true
  | _ => false
  end.

Definition is_print (e : event) : bool :=
  match e with Fprintf _ _ => true | _ => false end.

Definition on_stderr (e : event) : bool :=
  match e with Fprintf stderr _ => true | _ => false end.

(** ** What an option list says *)

Definition supplied (c : ascii) (options : list (ascii * string)) : bool :=
  existsb (λ o, Ascii.eqb (fst o) c) options.

(** The value the last [-c] of the list leaves, [d] when there is none. *)
Definition last_int (U : util) (c : ascii) (options : list (ascii * string)) (d : Z) : Z :=
  fold_left (λ acc o, if Ascii.eqb (fst o) c then snd (parse_int U (fst o) (snd o)) else acc)
            options d.

(** The output size the last [-s] or [-o] of the list leaves. *)
Definition last_size (U : util) (options : list (ascii * string)) (d : Z) : Z :=
  fold_left (λ acc o,
               if Ascii.eqb (fst o) "s" then snd (parse_int U (fst o) (snd o))
               else if Ascii.eqb (fst o) "o"
                    then MIB_TO_BYTE U (snd (parse_double U (fst o) (snd o)))
                    else acc)
            options d.

(** The option is one of [-t], [-r], [-s], [-o] and its value parses. *)
Definition parses (U : util) (o : ascii * string) : Prop :=
  let (c, optarg) := o in
  if Ascii.eqb c "t" || Ascii.eqb c "r" || Ascii.eqb c "s"
  then 0 ≤ fst (parse_int U c optarg)
  else if Ascii.eqb c "o" then 0 ≤ fst (parse_double U c optarg)
  else False.

(** One of the four options that take a value. *)
Definition known (c : ascii) : bool :=
  Ascii.eqb c "t" || Ascii.eqb c "r" || Ascii.eqb c "s" || Ascii.eqb c "o".

(** The option is not [-h], and its value parses if it is one of the four;
    anything else getopt may yield, such as [?], is left in. *)
Definition acceptable (U : util) (o : ascii * string) : Prop :=
  let (c, optarg) := o in
  if Ascii.eqb c "t" || Ascii.eqb c "r" || Ascii.eqb c "s"
  then 0 ≤ fst (parse_int U c optarg)
  else if Ascii.eqb c "o" then 0 ≤ fst (parse_double U c optarg)
  else Ascii.eqb c "h" = false.

(** [parse_args] returned a code that is not negative, the device was
    initialised and reports a channel in each direction. *)
Definition reaches_transfer (U : util) (W : world) (argc : Z) (argv : list string) : Prop :=
  (∃ rc, out (fst (parse_args U W argc argv trans_zero)) = Returned rc ∧ 0 ≤ rc)
  ∧ axidma_init W ≠ NULL
  ∧ axidma_get_dma_tx W (axidma_init W) ≠ []
  ∧ axidma_get_dma_rx W (axidma_init W) ≠ [].

(** ** The dump as the specification words it

    The bytes in lines of sixteen; a line is a line break followed by one
    token per byte. *)
Fixpoint lines16 (count : nat) (bytes : list Z) : list (list Z) :=
  match count with
  | O => []
  | S c => take 16 bytes :: lines16 c (drop 16 bytes)
  end.

Definition token (b : Z) : event := Fprintf stdout ("0x" +:+ printf_02x b +:+ " ").

Definition dump_lines (bytes : list Z) : list event :=
  concat (map (λ line, Fprintf stdout nl :: map token line)
              (lines16 (Nat.div (length bytes + 15) 16) bytes)).

Definition hex_digit (d : Z) : ascii :=
  nth (Z.to_nat d) (list_ascii_of_string "0123456789abcdef") "?"%char.

Definition valid_buffer (b : buffer) : Prop :=
  length b = Z.to_nat MAXLENGTH ∧ Forall (λ x, 0 ≤ x < 256) b.

(** The descriptor [parse_args] leaves when the option loop ran to its end. *)
Definition parsed_trans (U : util) (options : list (ascii * string)) : dma_transfer :=
  Build_dma_transfer (last_int U "t" options (-1)) 0 0
                     (last_int U "r" options (-1)) (last_size U options (-1)).

(** A run that ended before any transfer: it made no call but those of
    the early stages, and gave back every handle it got. *)
Definition stops_early (W : world) (r : run) : Prop :=
  Forall (λ e, is_early e = true) (events r)
  ∧ released (events r) = acquired (events r)
  ∧ (acquired (events r) = [] ∨ acquired (events r) = [axidma_init W])
  ∧ out r ≠ Running ∧ out r ≠ Undefined.

(** The six events of a run that gets as far as the transfer stage. *)
Definition early_events (W : world) : list event :=
  [ Call_axidma_config; Call_XDma_Out32 4 1; Call_axidma_init (axidma_init W);
    Fprintf stdout ("Succeed to initialize the AXI DMA device." +:+ nl);
    Call_axidma_get_dma_tx (axidma_init W); Call_axidma_get_dma_rx (axidma_init W) ].

(** ** More of what a trace shows *)

(** Whether [pthread_detach] was called. *)
Definition detached (evs : list event) : bool :=
  existsb (λ e, match e with Call_pthread_detach => true | _ => false end) evs.

(** The descriptors given to [close]. *)
Definition closes (evs : list event) : list Z :=
  omap (λ e, match e with Call_close fd _ => Some fd | _ => None end) evs.

(** The transfer descriptors the sends and the receives were issued with. *)
Definition send_transfers (evs : list event) : list dma_transfer :=
  omap (λ e, match e with Call_axidma0send _ t _ _ => Some t | _ => None end) evs.
Definition read_transfers (evs : list event) : list dma_transfer :=
  omap (λ e, match e with Call_axidma0read _ t _ => Some t | _ => None end) evs.

(** The status the helper called for an option returns: [parse_int] for
    -t, -r, -s, [parse_double] for -o; no helper for anything else. *)
Definition helper_code (U : util) (o : ascii * string) : option Z :=
  let (c, optarg) := o in
  if Ascii.eqb c "t" || Ascii.eqb c "r" || Ascii.eqb c "s"
  then Some (fst (parse_int U c optarg))
  else if Ascii.eqb c "o" then Some (fst (parse_double U c optarg))
  else None.

(** Reading the dump back: the value of a hex digit, the byte of a token,
    the bytes of a dump (line breaks carry none). *)
Definition hex_value (c : ascii) : option Z :=
  let n := Z.of_N (N_of_ascii c) in
  if (48 <=? n) && (n <=? 57) then Some (n - 48)
  else if (97 <=? n) && (n <=? 102) then Some (n - 87)
  else None.

Definition untoken (s : string) : option Z :=
  match s with
  | String a (String b (String h (String l (String sp EmptyString)))) =>
      if Ascii.eqb a "0" && Ascii.eqb b "x" && Ascii.eqb sp " "
      then hi ← hex_value h; lo ← hex_value l; Some (16 * hi + lo)
      else None
  | _ => None
  end.

Definition undump (evs : list event) : list Z :=
  omap (λ e, match e with Fprintf stdout s => untoken s | _ => None end) evs.

(** * Proofs *)

(** Lists of events and of options given in full. *)
Ltac early_events :=
  repeat first [ assumption | apply Forall_nil_2 | apply Forall_cons_2; [reflexivity|] ].

Ltac all_parse :=
  repeat (apply Forall_cons_2; [vm_compute; discriminate|]); apply Forall_nil_2.

(** ** Loops *)

Lemma for_loop_app {S : Type} (n m : nat) (i : Z) (body : Z → S → S) (s : S) :
  for_loop (n + m) i body s = for_loop m (i + Z.of_nat n) body (for_loop n i body s).
Proof.
  revert i s. induction n as [|n IH]; intros i s; simpl for_loop.
  - simpl. by rewrite Z.add_0_r.
  - rewrite IH. f_equal. lia.
Qed.

(** The invariant rule: what holds before the loop and is kept by every
    round holds after it. *)
Lemma for_loop_invariant {S : Type} (P : Z → S → Prop) (n : nat) (i : Z)
    (body : Z → S → S) (s : S) :
  P i s →
  (∀ j s', i ≤ j < i + Z.of_nat n → P j s' → P (j + 1) (body j s')) →
  P (i + Z.of_nat n) (for_loop n i body s).
Proof.
  revert i s. induction n as [|n IH]; intros i s Hi Hstep.
  - simpl. by rewrite Z.add_0_r.
  - simpl for_loop.
    replace (i + Z.of_nat (Datatypes.S n)) with ((i + 1) + Z.of_nat n) by lia.
    apply IH.
    + apply Hstep; [lia | done].
    + intros j s' Hj. apply Hstep. lia.
Qed.

(** ** The send buffer *)

Lemma zero_buffer_length : length zero_buffer = 2048%nat.
Proof. unfold zero_buffer. by rewrite length_replicate. Qed.

Lemma sbuffer_init_spec (b : buffer) :
  (2000 ≤ length b)%nat →
  length (sbuffer_init b) = length b
  ∧ (∀ index, 0 ≤ index < 2000 → sbuffer_init b !! Z.to_nat index = Some (index mod 256))
  ∧ (∀ k, (2000 ≤ k)%nat → sbuffer_init b !! k = b !! k).
Proof.
  intros Hlen. unfold sbuffer_init.
  pose (P := λ (j : Z) (s : buffer),
    length s = length b
    ∧ (∀ index, 0 ≤ index < j → s !! Z.to_nat index = Some (index mod 256))
    ∧ (∀ k, (Z.to_nat j ≤ k)%nat → s !! k = b !! k)).
  assert (H : P (0 + Z.of_nat 2000) (for_loop 2000 0 (λ i s, <[Z.to_nat i := to_uchar i]> s) b)).
  { apply for_loop_invariant; unfold P.
    - split; [done | split; [intros; lia | done]].
    - intros j s [Hj1 Hj2] (Hl & Hlow & Hhigh). cbv beta. split; [|split].
      + by rewrite length_insert.
      + intros index Hindex. destruct (decide (index = j)) as [->|Hne].
        * rewrite list_lookup_insert_eq; [done | lia].
        * rewrite list_lookup_insert_ne; [apply Hlow; lia | lia].
      + intros k Hk. rewrite list_lookup_insert_ne; [apply Hhigh; lia | lia]. }
  unfold P in H. destruct H as (H1 & H2 & H3). split; [done | split].
  - intros index Hindex. apply H2. lia.
  - intros k Hk. apply H3. lia.
Qed.

(** Filling the buffer again, as the receive task does, changes nothing. *)
Lemma sbuffer_init_twice (b : buffer) :
  (2000 ≤ length b)%nat → sbuffer_init (sbuffer_init b) = sbuffer_init b.
Proof.
  intros Hlen.
  destruct (sbuffer_init_spec b Hlen) as (L1 & P1 & R1).
  destruct (sbuffer_init_spec (sbuffer_init b)) as (L2 & P2 & R2); [lia|].
  apply list_eq. intros k.
  destruct (decide (k < 2000)%nat) as [Hk|Hk].
  - specialize (P1 (Z.of_nat k)). specialize (P2 (Z.of_nat k)).
    rewrite Nat2Z.id in P1, P2. rewrite P1, P2; [done | lia | lia].
  - apply R2. lia.
Qed.

(** ** The option loop *)

Lemma print_usage_stderr : print_usage false = [Fprintf stderr usage_line].
Proof. reflexivity. Qed.

(** However the loop ends, it has printed nothing when it ran to its end,
    the help when it left through [exit], the short usage when it
    returned, and then the code it returned is negative. *)
Lemma getopt_loop_exit (U : util) (options : list (ascii * string))
    (trans : dma_transfer) (o s : bool) :
  let p := getopt_loop U options trans o s in
  (p_exit p = None ∧ p_events p = [])
  ∨ (p_exit p = Some (Exited 0) ∧ p_events p = print_usage true)
  ∨ (∃ rc, p_exit p = Some (Returned rc) ∧ rc < 0 ∧ p_events p = print_usage false).
Proof.
  revert trans o s.
  induction options as [|[c a] options IH]; intros trans o s; simpl.
  - by left.
  - repeat match goal with
           | |- context [Ascii.eqb c ?x] => destruct (Ascii.eqb c x)
           | |- context [parse_int U c a] => destruct (parse_int U c a) as [? ?]
           | |- context [parse_double U c a] => destruct (parse_double U c a) as [? ?]
           | |- context [?r <? 0] => destruct (Z.ltb_spec r 0)
           end; simpl; try apply IH;
      try (right; right; eexists; split; [reflexivity | split; [first [done | unfold EINVAL; lia] | done]]).
    right; left; done.
Qed.

(** When every option is one of the four and parses, the loop runs to its
    end and leaves the last value of each. *)
Lemma getopt_loop_completes (U : util) (options : list (ascii * string))
    (trans : dma_transfer) (o s : bool) :
  Forall (parses U) options →
  getopt_loop U options trans o s =
  Build_parsed None
    (Build_dma_transfer (last_int U "t" options (input_channel trans))
                        (input_size trans) (output_fd trans)
                        (last_int U "r" options (output_channel trans))
                        (last_size U options (output_size trans)))
    (o || supplied "o" options) (s || supplied "s" options) [].
Proof.
  revert trans o s.
  induction options as [|[c a] options IH]; intros trans o s Hall.
  - simpl. destruct trans. by rewrite !orb_false_r.
  - apply Forall_cons in Hall as [Hp Hall]. simpl in Hp.
    unfold last_int, last_size, supplied. simpl.
    fold (last_int U "t"). fold (last_int U "r"). fold (last_size U).
    fold (supplied "o" options). fold (supplied "s" options).
    destruct (Ascii.eqb_spec c "t") as [->|Ht].
    { simpl in *. destruct (parse_int U "t" a) as [rc v]. simpl in *.
      destruct (Z.ltb_spec rc 0); [lia|]. by rewrite IH. }
    destruct (Ascii.eqb_spec c "r") as [->|Hr].
    { simpl in *. destruct (parse_int U "r" a) as [rc v]. simpl in *.
      destruct (Z.ltb_spec rc 0); [lia|]. by rewrite IH. }
    destruct (Ascii.eqb_spec c "s") as [->|Hs].
    { simpl in *. destruct (parse_int U "s" a) as [rc v]. simpl in *.
      destruct (Z.ltb_spec rc 0); [lia|]. rewrite IH by done. simpl.
      by rewrite !orb_true_r. }
    destruct (Ascii.eqb_spec c "o") as [->|Ho].
    { simpl in *. destruct (parse_double U "o" a) as [rc v]. simpl in *.
      destruct (Z.ltb_spec rc 0); [lia|]. rewrite IH by done. simpl.
      by rewrite !orb_true_r. }
    done.
Qed.

(** ** parse_args *)

(** The three checks after the loop, in the order of the code. *)
Lemma parse_args_checks (U : util) (W : world) (argc : Z) (argv : list string) :
  let g := getopt W argc argv in
  let trans := parsed_trans U (g_options g) in
  Forall (parses U) (g_options g) →
  parse_args U W argc argv trans_zero =
  if xorb (input_channel trans =? -1) (output_channel trans =? -1) then
    (Build_run (Returned (- EINVAL)) (Fprintf stderr pair_error :: print_usage false), trans)
  else if supplied "s" (g_options g) && supplied "o" (g_options g) then
    (Build_run (Returned (- EINVAL)) (Fprintf stderr exclusive_error :: print_usage false), trans)
  else if g_optind g <? argc - 2 then
    (Build_run (Returned (- EINVAL)) (Fprintf stderr too_many_error :: print_usage false), trans)
  else (Build_run (Returned 0) [], trans).
Proof.
  intros g trans Hall. unfold parse_args. fold g.
  rewrite getopt_loop_completes by done. simpl.
  fold (parsed_trans U (g_options g)). fold trans.
  reflexivity.
Qed.

(** [parse_args] only prints. *)
Lemma parse_args_prints (U : util) (W : world) (argc : Z) (argv : list string)
    (trans : dma_transfer) :
  Forall (λ e, is_print e = true) (events (fst (parse_args U W argc argv trans))).
Proof.
  unfold parse_args.
  set (t := set_output_size _ _). set (g := getopt W argc argv).
  destruct (getopt_loop_exit U (g_options g) t false false)
    as [[E1 E2]|[[E1 E2]|(rc & E1 & _ & E2)]];
    rewrite E1, E2; simpl.
  - repeat case_match; simpl; repeat constructor.
  - repeat constructor.
  - repeat constructor.
Qed.

(** A code that is not negative is 0, and nothing was printed. *)
Lemma parse_args_success (U : util) (W : world) (argc : Z) (argv : list string)
    (trans : dma_transfer) (rc : Z) :
  out (fst (parse_args U W argc argv trans)) = Returned rc → 0 ≤ rc →
  fst (parse_args U W argc argv trans) = Build_run (Returned 0) [].
Proof.
  unfold parse_args.
  set (t := set_output_size _ _). set (g := getopt W argc argv).
  destruct (getopt_loop_exit U (g_options g) t false false)
    as [[E1 E2]|[[E1 E2]|(rc' & E1 & Hneg & E2)]];
    rewrite E1, ?E2; simpl.
  - repeat case_match; simpl; intros [= <-]; unfold EINVAL; try lia. done.
  - discriminate.
  - intros [= <-]. lia.
Qed.

(** [parse_args] returns, or exits with status 0. *)
Lemma parse_args_ends (U : util) (W : world) (argc : Z) (argv : list string)
    (trans : dma_transfer) :
  (∃ rc, out (fst (parse_args U W argc argv trans)) = Returned rc)
  ∨ out (fst (parse_args U W argc argv trans)) = Exited 0.
Proof.
  unfold parse_args.
  set (t := set_output_size _ _). set (g := getopt W argc argv).
  destruct (getopt_loop_exit U (g_options g) t false false)
    as [[E1 E2]|[[E1 E2]|(rc' & E1 & Hneg & E2)]];
    rewrite E1; simpl; eauto.
  repeat case_match; simpl; eauto.
Qed.

(** The complaint about too many arguments is printed only when more than
    two are left. *)
Lemma parse_args_too_many (U : util) (W : world) (argc : Z) (argv : list string)
    (trans : dma_transfer) :
  In (Fprintf stderr too_many_error) (events (fst (parse_args U W argc argv trans))) →
  2 < argc - g_optind (getopt W argc argv).
Proof.
  unfold parse_args.
  set (t := set_output_size _ _). set (g := getopt W argc argv).
  destruct (getopt_loop_exit U (g_options g) t false false)
    as [[E1 E2]|[[E1 E2]|(rc' & E1 & Hneg & E2)]];
    rewrite E1, ?E2; simpl.
  - repeat case_match; simpl; intros Hin;
      repeat (destruct Hin as [Hin|Hin]; [try discriminate Hin|]); try done.
    all: match goal with Hlt : (_ <? _) = true |- _ => apply Z.ltb_lt in Hlt; lia end.
  - intros Hin. repeat (destruct Hin as [Hin|Hin]; [discriminate Hin|]). done.
  - intros [Hin|[]]. discriminate Hin.
Qed.

(** ** Channel resolution *)

Lemma resolve_channels_default (trans : dma_transfer) (t0 r0 : Z) (tx rx : list Z) :
  input_channel trans = -1 → output_channel trans = -1 →
  resolve_channels trans (t0 :: tx) (r0 :: rx)
  = Some (set_output_channel r0 (set_input_channel t0 trans)).
Proof. intros Hi Ho. unfold resolve_channels. by rewrite Hi, Ho. Qed.

Lemma resolve_channels_override (trans : dma_transfer) (tx rx : array_t) :
  input_channel trans ≠ -1 ∨ output_channel trans ≠ -1 →
  resolve_channels trans tx rx = Some trans.
Proof.
  intros H. unfold resolve_channels.
  destruct (Z.eqb_spec (input_channel trans) (-1)),
           (Z.eqb_spec (output_channel trans) (-1)); simpl; try done.
  lia.
Qed.

(** With a channel in each direction, [data[0]] is there to be read. *)
Lemma resolve_channels_total (trans : dma_transfer) (tx rx : array_t) :
  tx ≠ [] → rx ≠ [] → ∃ trans', resolve_channels trans tx rx = Some trans'.
Proof.
  intros Htx Hrx. destruct tx as [|t0 tx]; [done|]. destruct rx as [|r0 rx]; [done|].
  unfold resolve_channels. case_match; simpl; eauto.
Qed.

(** ** The stages before the transfer *)

Lemma len_cons (x : Z) (a : list Z) : (len (x :: a) <? 1) = false.
Proof. apply Z.ltb_ge. unfold len. simpl length. lia. Qed.

Lemma prints_hold_no_handle (evs : list event) :
  Forall (λ e, is_print e = true) evs →
  acquired evs = [] ∧ released evs = [] ∧ Forall (λ e, is_early e = true) evs.
Proof.
  induction 1 as [|e evs He _ (IH1 & IH2 & IH3)]; [done|].
  destruct e; try discriminate He. simpl. rewrite ?IH1, ?IH2.
  split; [done | split; [done | by constructor]].
Qed.

(** Both tasks begin with the same text; [next] is what follows the
    channel resolution.  Either the transfer stage is reached, behind six
    events, or the run stops early. *)
Lemma task_cases (U : util) (W : world) (argc : Z) (argv : list string)
    (next : buffer → axidma_dev_t → dma_transfer → run) :
  let r := setup U W argc argv (λ sbuffer trans, device_stage W trans (next sbuffer)) in
  let dev := axidma_init W in
  (reaches_transfer U W argc argv
   ∧ ∃ trans,
       resolve_channels (snd (parse_args U W argc argv trans_zero))
                        (axidma_get_dma_tx W dev) (axidma_get_dma_rx W dev) = Some trans
       ∧ r = after [ Call_axidma_config; Call_XDma_Out32 4 1; Call_axidma_init dev;
                     Fprintf stdout ("Succeed to initialize the AXI DMA device." +:+ nl);
                     Call_axidma_get_dma_tx dev; Call_axidma_get_dma_rx dev ]
                   (next (sbuffer_init zero_buffer) dev trans))
  ∨ (¬ reaches_transfer U W argc argv ∧ stops_early W r).
Proof.
  intros r dev. subst r. unfold setup, reaches_transfer.
  pose proof (parse_args_prints U W argc argv trans_zero) as Hprints.
  pose proof (parse_args_success U W argc argv trans_zero) as Hsucc.
  pose proof (parse_args_ends U W argc argv trans_zero) as Hends.
  destruct (parse_args U W argc argv trans_zero) as [args trans]. simpl in *.
  destruct (prints_hold_no_handle _ Hprints) as (Ha & Hr & He).
  assert (Hstop : ∀ o, o ≠ Running → o ≠ Undefined →
            stops_early W (after (Call_axidma_config :: Call_XDma_Out32 4 1 :: events args)
                               (Build_run o []))).
  { intros o Ho1 Ho2. unfold stops_early, after. simpl. rewrite app_nil_r.
    fold (acquired (events args)). fold (released (events args)). rewrite Ha, Hr.
    split; [early_events|]. split; [done|]. split; [by left | done]. }
  assert (Hout : out args ≠ Running ∧ out args ≠ Undefined).
  { destruct Hends as [[rc E]|E]; rewrite E; done. }
  destruct (out args) as [rc| | | |] eqn:Eo;
    try (right; split; [by intros [(rc' & [=] & _) _] | by apply Hstop]).
  - destruct (Z.ltb_spec rc 0) as [Hneg|Hpos].
    { right. split; [intros [(rc' & [= <-] & Hrc) _]; lia | by apply Hstop]. }
    rewrite (Hsucc rc eq_refl Hpos). simpl.
    unfold device_stage. fold dev.
    destruct (Z.eqb_spec dev NULL) as [Hnull|Hdev].
    { right. split; [by intros (_ & Hd & _)|].
      unfold stops_early, after, close_output. simpl. rewrite Hnull. simpl.
      split; [early_events|]. split; [done|]. split; [first [by left | by right]|].
      by case_match. }
    destruct (axidma_get_dma_tx W dev) as [|t0 tx] eqn:Etx.
    { right. split; [by intros (_ & _ & Ht & _)|].
      unfold stops_early, after, destroy_axidma, close_output, after. simpl.
      destruct (Z.eqb_spec dev NULL); [done|]. simpl.
      split; [early_events|]. split; [done|]. split; [first [by left | by right]|].
      by case_match. }
    rewrite len_cons.
    destruct (axidma_get_dma_rx W dev) as [|r0 rx] eqn:Erx.
    { right. split; [by intros (_ & _ & _ & Hx)|].
      unfold stops_early, after, destroy_axidma, close_output, after. simpl.
      destruct (Z.eqb_spec dev NULL); [done|]. simpl.
      split; [early_events|]. split; [done|]. split; [first [by left | by right]|].
      by case_match. }
    left. split; [by eauto 10|].
    destruct (resolve_channels_total trans (t0 :: tx) (r0 :: rx)) as [trans' Ht]; [done..|].
    exists trans'. split; [done|].
    rewrite len_cons, Ht. unfold after. simpl. reflexivity.
  - by destruct Hout.
  - by destruct Hout.
Qed.

(** ** main *)

Lemma events_after (evs : list event) (r : run) :
  events (after evs r) = evs ++ events r.
Proof. reflexivity. Qed.

Lemma out_after (evs : list event) (r : run) : out (after evs r) = out r.
Proof. reflexivity. Qed.

(** The events of the transfer stage, one by one. *)
Lemma transfer_stage_events (U : util) (W : world) (sbuffer : buffer)
    (dev : axidma_dev_t) (trans : dma_transfer) :
  let t1 := set_output_size 2048 (set_input_size 1000 trans) in
  let t2 := set_input_size 2000 t1 in
  let t3 := set_input_size 1800 t2 in
  events (transfer_stage U W sbuffer dev trans) =
  transfer_info U trans
  ++ [ Call_axidma0send dev t1 sbuffer (axidma0send W 0);
       Fprintf stdout ("success send axidma0" +:+ nl);
       Call_sleep 5; Call_sleep 5;
       Call_axidma0send dev t2 sbuffer (axidma0send W 1);
       Call_sleep 5;
       Call_axidma0send dev t3 sbuffer (axidma0send W 2);
       Call_pthread_create (pthread_create W) ]
  ++ (if pthread_create W =? 0
      then [ Call_pthread_detach; Call_axidma_destroy dev;
             Call_close (output_fd trans) (close W (output_fd trans)) ]
      else [ Fprintf stdout ("pthreadrx_create fail" +:+ nl) ]).
Proof.
  intros t1 t2 t3. unfold transfer_stage, after. simpl events.
  destruct (pthread_create W =? 0); simpl; reflexivity.
Qed.

Lemma transfer_stage_out (U : util) (W : world) (sbuffer : buffer)
    (dev : axidma_dev_t) (trans : dma_transfer) :
  out (transfer_stage U W sbuffer dev trans) =
  if pthread_create W =? 0 then
    if close W (output_fd trans) =? 0
    then Returned (if axidma0send W 2 <? 0 then neg_int (axidma0send W 2) else 0)
    else Aborted
  else Returned (-1).
Proof.
  unfold transfer_stage, after. simpl out.
  destruct (pthread_create W =? 0); simpl; reflexivity.
Qed.

(** A run of [main] that reaches the transfer stage. *)
Lemma main_reaches (U : util) (W : world) (argc : Z) (argv : list string) :
  reaches_transfer U W argc argv →
  ∃ trans,
    resolve_channels (snd (parse_args U W argc argv trans_zero))
      (axidma_get_dma_tx W (axidma_init W)) (axidma_get_dma_rx W (axidma_init W))
    = Some trans
    ∧ main U W argc argv
      = after (early_events W)
              (transfer_stage U W (sbuffer_init zero_buffer) (axidma_init W) trans).
Proof.
  intros Hr.
  destruct (task_cases U W argc argv (transfer_stage U W)) as [(_ & trans & H1 & H2)|[Hn _]];
    [|done].
  exists trans. split; [done|]. exact H2.
Qed.

(** A run of [main] that does not. *)
Lemma main_stops (U : util) (W : world) (argc : Z) (argv : list string) :
  ¬ reaches_transfer U W argc argv → stops_early W (main U W argc argv).
Proof.
  intros Hn.
  destruct (task_cases U W argc argv (transfer_stage U W)) as [(Hr & _)|[_ Hs]]; done.
Qed.

Lemma reaches_transfer_dec (U : util) (W : world) (argc : Z) (argv : list string) :
  reaches_transfer U W argc argv ∨ ¬ reaches_transfer U W argc argv.
Proof.
  destruct (task_cases U W argc argv (transfer_stage U W)) as [(Hr & _)|[Hn _]]; eauto.
Qed.

Lemma early_no_send (evs : list event) :
  Forall (λ e, is_early e = true) evs →
  sent evs = [] ∧ send_devs evs = [] ∧ read_devs evs = [] ∧ send_channels evs = []
  ∧ (∀ e, In e evs → is_early e = true).
Proof.
  intros H. split; [|split; [|split; [|split]]].
  1-4: induction H as [|e evs He _ IH]; [done|]; destruct e; try discriminate He; simpl; exact IH.
  intros e Hin. rewrite Forall_forall in H. apply H. by apply list_elem_of_In.
Qed.

(** In every run of [main], a send is an event of the transfer stage. *)
Lemma main_send_inv (U : util) (W : world) (argc : Z) (argv : list string)
    (dev : axidma_dev_t) (trans : dma_transfer) (buf : buffer) (ret : Z) :
  In (Call_axidma0send dev trans buf ret) (events (main U W argc argv)) →
  reaches_transfer U W argc argv
  ∧ dev = axidma_init W ∧ buf = sbuffer_init zero_buffer.
Proof.
  intros Hin.
  destruct (reaches_transfer_dec U W argc argv) as [Hr|Hn].
  - split; [done|].
    destruct (main_reaches U W argc argv Hr) as (t & _ & Hm).
    rewrite Hm, events_after, transfer_stage_events in Hin.
    unfold early_events, transfer_info in Hin.
    remember (sbuffer_init zero_buffer) as sb eqn:Esb. clear Esb Hm.
    destruct (pthread_create W =? 0); cbn [app In] in Hin;
      repeat (destruct Hin as [Hin|Hin]; [try discriminate Hin; try (by inversion Hin)|]);
      done.
  - destruct (main_stops U W argc argv Hn) as (He & _).
    apply early_no_send in He as (_ & _ & _ & _ & He).
    apply He in Hin. discriminate Hin.
Qed.

(** C9: before any send is issued, the first 2000 bytes of the send buffer
    hold [index mod 256] at every [index]: each send of [main] is handed
    the buffer as the initialisation loop left it, and that buffer holds
    the pattern. *)
Theorem sbuffer_pattern_before_sends (U : util) (W : world) (argc : Z)
    (argv : list string) (dev : axidma_dev_t) (trans : dma_transfer)
    (buf : buffer) (ret : Z) (index : Z) :
  In (Call_axidma0send dev trans buf ret) (events (main U W argc argv)) →
  0 ≤ index < 2000 →
  buf = sbuffer_init zero_buffer
  ∧ buf !! Z.to_nat index = Some (index mod 256).
Proof.
  intros Hin Hindex.
  apply main_send_inv in Hin as (_ & _ & ->). split; [done|].
  apply sbuffer_init_spec; [|done]. rewrite zero_buffer_length. lia.
Qed.

Lemma sbuffer_pattern_witness :
  sbuffer_init zero_buffer !! 1999%nat = Some 207.
Proof.
  refine (proj2 (sbuffer_pattern_before_sends Sample.helpers Sample.device 1 ["demo"]
                   7 (Build_dma_transfer 2 1000 0 1 2048) (sbuffer_init zero_buffer)
                   0 1999 _ _)).
  - vm_compute. do 11 right. left. reflexivity.
  - lia.
Defined.

(** What the transfer stage shows, whatever the buffer. *)
Lemma transfer_stage_shows (U : util) (W : world) (sbuffer : buffer)
    (dev : axidma_dev_t) (trans : dma_transfer) :
  let evs := events (transfer_stage U W sbuffer dev trans) in
  sent evs = [(1000, axidma0send W 0); (2000, axidma0send W 1); (1800, axidma0send W 2)]
  ∧ send_devs evs = [dev; dev; dev]
  ∧ send_channels evs = replicate 3 (input_channel trans, output_channel trans)
  ∧ read_devs evs = []
  ∧ acquired evs = []
  ∧ released evs = (if pthread_create W =? 0 then [dev] else []).
Proof.
  intros evs. subst evs. rewrite transfer_stage_events.
  unfold transfer_info, sent, send_devs, send_channels, read_devs, acquired, released.
  destruct (pthread_create W =? 0); cbn [omap list_omap app]; done.
Qed.

(** C4: when the device reports a channel in each direction and both
    channel fields of the descriptor are still -1 after the arguments were
    parsed, channel resolution sets the transmit channel to the first
    element of the transmit set and the receive channel to the first
    element of the receive set, and every send is issued with these two;
    with the sets [2,3] and [1,4] these are 2 and 1. *)
Theorem default_channels_first_elements (U : util) (W : world) (argc : Z)
    (argv : list string) (t0 r0 : Z) (tx rx : list Z) :
  let parsed := snd (parse_args U W argc argv trans_zero) in
  reaches_transfer U W argc argv →
  input_channel parsed = -1 → output_channel parsed = -1 →
  axidma_get_dma_tx W (axidma_init W) = t0 :: tx →
  axidma_get_dma_rx W (axidma_init W) = r0 :: rx →
  ∃ resolved,
    resolve_channels parsed (t0 :: tx) (r0 :: rx) = Some resolved
    ∧ input_channel resolved = t0 ∧ output_channel resolved = r0
    ∧ send_channels (events (main U W argc argv)) = [(t0, r0); (t0, r0); (t0, r0)].
Proof.
  intros parsed Hr Hi Ho Htx Hrx.
  destruct (main_reaches U W argc argv Hr) as (resolved & Hres & Hm).
  fold parsed in Hres. rewrite Htx, Hrx in Hres.
  exists resolved. split; [done|].
  rewrite resolve_channels_default in Hres by done.
  injection Hres as <-. split; [done|]. split; [done|].
  rewrite Hm, events_after. unfold send_channels. rewrite omap_app.
  fold (send_channels (events (transfer_stage U W (sbuffer_init zero_buffer) (axidma_init W)
          (set_output_channel r0 (set_input_channel t0 parsed))))).
  destruct (transfer_stage_shows U W (sbuffer_init zero_buffer) (axidma_init W)
              (set_output_channel r0 (set_input_channel t0 parsed))) as (_ & _ & -> & _).
  reflexivity.
Qed.

Lemma default_channels_witness :
  ∃ resolved,
    resolve_channels (snd (parse_args Sample.helpers Sample.device 1 ["demo"] trans_zero))
                     [2; 3] [1; 4] = Some resolved
    ∧ input_channel resolved = 2 ∧ output_channel resolved = 1
    ∧ send_channels (events (main Sample.helpers Sample.device 1 ["demo"]))
      = [(2, 1); (2, 1); (2, 1)].
Proof.
  apply (default_channels_first_elements Sample.helpers Sample.device 1 ["demo"] 2 1 [3] [4]).
  - split; [exists 0; split; [reflexivity | lia] | repeat split; discriminate].
  - reflexivity.
  - reflexivity.
  - reflexivity.
  - reflexivity.
Defined.

(** ** The hex dump *)

Lemma store_valid (data : list Z) (rbuffer : buffer) :
  valid_buffer rbuffer → valid_buffer (store data rbuffer).
Proof.
  intros [Hlen Hbytes]. unfold valid_buffer, store. split.
  - rewrite length_take, length_app, length_map, length_drop. lia.
  - apply Forall_take, Forall_app. split.
    + apply Forall_forall. intros x Hx.
      apply list_elem_of_fmap in Hx as (y & -> & _).
      unfold to_uchar. apply Z.mod_pos_bound. lia.
    + by apply Forall_drop.
Qed.

Lemma zero_buffer_valid : valid_buffer zero_buffer.
Proof.
  split; [apply zero_buffer_length|].
  unfold zero_buffer. apply Forall_forall. intros x Hx.
  apply elem_of_replicate in Hx as [-> _]. lia.
Qed.

(** A byte is printed as exactly two hex digits. *)
Lemma printf_02x_byte (b : Z) :
  0 ≤ b < 256 →
  printf_02x b = String (hex_digit (b / 16)) (String (hex_digit (b mod 16)) EmptyString).
Proof.
  intros Hb.
  assert (Hall : forallb (λ n, String.eqb (printf_02x (Z.of_nat n))
                      (String (hex_digit (Z.of_nat n / 16))
                              (String (hex_digit (Z.of_nat n mod 16)) EmptyString)))
                   (seq 0 256) = true) by (vm_compute; reflexivity).
  rewrite forallb_forall in Hall.
  specialize (Hall (Z.to_nat b)). rewrite Z2Nat.id in Hall by lia.
  apply String.eqb_eq, Hall, in_seq. lia.
Qed.

Lemma lines16_lookup (count : nat) (bytes : list Z) (j : nat) :
  (j < count)%nat →
  lines16 count bytes !! j = Some (take 16 (drop (16 * j) bytes)).
Proof.
  revert bytes j. induction count as [|c IH]; intros bytes j Hj; [lia|].
  destruct j as [|j]; simpl lines16.
  - done.
  - change ((take 16 bytes :: lines16 c (drop 16 bytes)) !! S j)
      with (lines16 c (drop 16 bytes) !! j).
    rewrite IH by lia. rewrite drop_drop. do 3 f_equal. lia.
Qed.

Lemma lines16_length (count : nat) (bytes : list Z) :
  length (lines16 count bytes) = count.
Proof. revert bytes. induction count; intros; simpl; [done | by f_equal]. Qed.

Lemma line_count_step (n : nat) :
  (16 ≤ n)%nat → ((n + 15) / 16 = S ((n - 16 + 15) / 16))%nat.
Proof.
  intros Hn. replace (n + 15)%nat with ((n - 16 + 15) + 1 * 16)%nat by lia.
  rewrite Nat.div_add by lia. lia.
Qed.

Lemma line_count_small (n : nat) :
  (0 < n ≤ 16)%nat → ((n + 15) / 16 = 1)%nat.
Proof.
  intros Hn. symmetry. apply (Nat.div_unique _ _ _ (n - 1)); lia.
Qed.

Lemma lines16_concat (bytes : list Z) :
  concat (lines16 ((length bytes + 15) / 16) bytes) = bytes.
Proof.
  remember (length bytes) as n eqn:En. revert bytes En.
  induction n as [n IH] using lt_wf_ind. intros bytes En.
  destruct (decide (n = 0)%nat) as [->|Hn0].
  { destruct bytes; [done | discriminate]. }
  destruct (decide (n ≤ 16)%nat) as [Hs|Hl].
  - rewrite line_count_small by lia. simpl. rewrite app_nil_r.
    apply take_ge. lia.
  - rewrite line_count_step by lia. simpl lines16. simpl concat.
    rewrite (IH (n - 16)%nat); [apply take_drop | lia |].
    rewrite length_drop. lia.
Qed.

(** One more byte adds one token, behind a line break when sixteen divides
    the number of bytes before it. *)
Lemma dump_lines_snoc (bytes : list Z) (b : Z) :
  dump_lines (bytes ++ [b]) =
  dump_lines bytes
  ++ (if Z.of_nat (length bytes) mod 16 =? 0 then [Fprintf stdout nl] else [])
  ++ [token b].
Proof.
  remember (length bytes) as n eqn:En. revert bytes En.
  induction n as [n IH] using lt_wf_ind. intros bytes En.
  unfold dump_lines. rewrite length_app. simpl length. rewrite <- En.
  destruct (decide (n = 0)%nat) as [->|Hn0].
  { destruct bytes; [done | discriminate]. }
  destruct (decide (n < 16)%nat) as [Hs|Hl].
  - rewrite (line_count_small n), (line_count_small (n + 1)) by lia.
    simpl. rewrite !app_nil_r.
    rewrite !take_ge by (rewrite ?length_app; simpl; lia).
    rewrite map_app. simpl.
    replace (Z.of_nat n mod 16 =? 0) with false; [done|].
    symmetry. apply Z.eqb_neq. rewrite Z.mod_small; lia.
  - rewrite (line_count_step n), (line_count_step (n + 1)) by lia.
    cbn [lines16 map concat].
    rewrite take_app_le, drop_app_le by lia.
    specialize (IH (n - 16)%nat ltac:(lia) (drop 16 bytes)).
    rewrite length_drop in IH. specialize (IH ltac:(lia)).
    unfold dump_lines in IH. rewrite length_app, length_drop in IH.
    simpl length in IH. rewrite <- En in IH.
    replace (n + 1 - 16)%nat with (n - 16 + 1)%nat by lia.
    rewrite IH. rewrite <- !app_assoc. simpl.
    replace (Z.of_nat (n - 16) mod 16) with (Z.of_nat n mod 16); [done|].
    replace (Z.of_nat n) with (Z.of_nat (n - 16) + 1 * 16) by lia.
    by rewrite Z.mod_add.
Qed.

(** The loop prints the dump the specification words, as long as it stays
    inside the array. *)
Lemma hex_dump_lines (rec_len : Z) (rbuffer : buffer) :
  (Z.to_nat rec_len ≤ length rbuffer)%nat →
  hex_dump rec_len rbuffer = Some (dump_lines (take (Z.to_nat rec_len) rbuffer)).
Proof.
  unfold hex_dump. generalize (Z.to_nat rec_len) as n. clear rec_len.
  induction n as [|n IH]; intros Hn; [done|].
  replace (S n) with (n + 1)%nat by lia.
  rewrite for_loop_app. rewrite IH by lia.
  cbn [for_loop]. unfold dump_byte. rewrite Z.add_0_l, Nat2Z.id.
  destruct (lookup_lt_is_Some_2 rbuffer n ltac:(lia)) as [b Hb].
  rewrite Hb. cbn [mbind option_bind].
  replace (n + 1)%nat with (S n) by lia.
  rewrite (take_S_r _ _ _ Hb), dump_lines_snoc.
  rewrite length_take, Nat.min_l by lia. done.
Qed.

(** As long as no receive claims more bytes than the buffer holds, the
    loop keeps running: every round stays inside the array. *)
Lemma receive_loop_runs (W : world) (dev : axidma_dev_t) (trans : dma_transfer)
    (n k : nat) (rbuffer : buffer) :
  valid_buffer rbuffer →
  (∀ j, fst (axidma0read W j) ≤ MAXLENGTH) →
  out (receive_loop W dev trans n k rbuffer) = Running.
Proof.
  intros Hvalid Hcap. revert k rbuffer Hvalid.
  induction n as [|n IH]; intros k rbuffer Hvalid; cbn [receive_loop]; [done|].
  specialize (Hcap k). destruct (axidma0read W k) as [rec_len data]. cbn [fst] in Hcap.
  pose proof (store_valid data rbuffer Hvalid) as Hstore.
  rewrite hex_dump_lines by (destruct Hstore as [-> _]; lia).
  rewrite out_after. by apply IH.
Qed.

Lemma append_last_inj (x y : string) (c : ascii) :
  x +:+ String c EmptyString = y +:+ String c EmptyString → x = y.
Proof.
  revert y. induction x as [|a x IH]; intros [|b y] H; simpl in H.
  - done.
  - injection H as _ H. by destruct y.
  - injection H as _ H. by destruct x.
  - injection H as -> H. f_equal. by apply IH.
Qed.

(** The count line names one number only. *)
Lemma count_line_inj (n m : Z) :
  nl +:+ "rec_len = 0x" +:+ printf_d n +:+ nl
  = nl +:+ "rec_len = 0x" +:+ printf_d m +:+ nl → n = m.
Proof.
  intros H. simpl in H. injection H as H.
  apply append_last_inj in H. unfold printf_d in H. by apply (inj pretty) in H.
Qed.

(** C5: a receive that returns N bytes, N at most the 2048 of the receive
    buffer, is followed by the byte count N and a hex dump of exactly the N
    bytes received, one token of two hex digits per byte, sixteen tokens
    per line. *)
Theorem receive_round_prints_count_and_dump (W : world) (dev : axidma_dev_t)
    (trans : dma_transfer) (k : nat) (rbuffer : buffer) (N : Z) (data : list Z) :
  let bytes := take (Z.to_nat N) (store data rbuffer) in
  let lines := lines16 ((length bytes + 15) / 16) bytes in
  valid_buffer rbuffer →
  axidma0read W k = (N, data) →
  0 ≤ N ≤ MAXLENGTH →
  events (receive_loop W dev trans 1 k rbuffer)
  = Call_axidma0read dev trans N
    :: Fprintf stdout (nl +:+ "rec_len = 0x" +:+ printf_d N +:+ nl)
    :: concat (map (λ line, Fprintf stdout nl :: map token line) lines)
  ∧ (∀ M, nl +:+ "rec_len = 0x" +:+ printf_d M +:+ nl
          = nl +:+ "rec_len = 0x" +:+ printf_d N +:+ nl → M = N)
  ∧ concat lines = bytes
  ∧ Z.of_nat (length bytes) = N
  ∧ (∀ j line, lines !! j = Some line →
       (0 < length line)%nat ∧ length line = Nat.min 16 (length bytes - 16 * j))
  ∧ (∀ b, In b bytes →
       token b = Fprintf stdout
                   ("0x" +:+ String (hex_digit (b / 16)) (String (hex_digit (b mod 16)) EmptyString)
                    +:+ " ")).
Proof.
  intros bytes lines Hvalid Hread HN. unfold MAXLENGTH in HN.
  destruct (store_valid data rbuffer Hvalid) as [Hlen Hbytes].
  unfold MAXLENGTH in Hlen.
  assert (Hcount : length bytes = Z.to_nat N).
  { unfold bytes. rewrite length_take. lia. }
  split; [|split; [|split; [|split; [|split]]]].
  - cbn [receive_loop]. rewrite Hread.
    rewrite hex_dump_lines by lia.
    rewrite events_after. cbn [events]. rewrite app_nil_r. reflexivity.
  - intros M HM. by apply count_line_inj.
  - apply lines16_concat.
  - lia.
  - intros j line Hj.
    assert (Hlt : (j < (length bytes + 15) / 16)%nat).
    { apply lookup_lt_Some in Hj. unfold lines in Hj.
      by rewrite lines16_length in Hj. }
    unfold lines in Hj. rewrite lines16_lookup in Hj by done.
    injection Hj as <-. rewrite length_take, length_drop.
    pose proof (Nat.Div0.mul_div_le (length bytes + 15) 16) as Hdiv.
    lia.
  - intros b Hb. unfold token. rewrite printf_02x_byte; [done|].
    rewrite Forall_forall in Hbytes. apply Hbytes.
    apply list_elem_of_In in Hb. by apply (subseteq_take (Z.to_nat N)).
Qed.

Lemma receive_round_witness :
  events (receive_loop Sample.device_rec 9 (Build_dma_transfer 2 0 0 1 (-1)) 1 0 zero_buffer)
  = [ Call_axidma0read 9 (Build_dma_transfer 2 0 0 1 (-1)) 3;
      Fprintf stdout (nl +:+ "rec_len = 0x3" +:+ nl);
      Fprintf stdout nl;
      Fprintf stdout "0xa1 "; Fprintf stdout "0xb2 "; Fprintf stdout "0xc3 " ].
Proof.
  pose proof (receive_round_prints_count_and_dump Sample.device_rec 9
                (Build_dma_transfer 2 0 0 1 (-1)) 0 zero_buffer 3 [161; 178; 195]
                zero_buffer_valid eq_refl ltac:(unfold MAXLENGTH; lia)) as H.
  apply proj1 in H. vm_compute in H. vm_compute. exact H.
Defined.

(** ** The descriptor fields the parser leaves alone *)

Lemma getopt_loop_keeps (U : util) (options : list (ascii * string))
    (trans : dma_transfer) (o s : bool) :
  output_fd (p_trans (getopt_loop U options trans o s)) = output_fd trans
  ∧ input_size (p_trans (getopt_loop U options trans o s)) = input_size trans.
Proof.
  revert trans o s.
  induction options as [|[c a] options IH]; intros trans o s; simpl; [done|].
  repeat match goal with
         | |- context [Ascii.eqb c ?x] => destruct (Ascii.eqb c x)
         | |- context [parse_int U c a] => destruct (parse_int U c a) as [? ?]
         | |- context [parse_double U c a] => destruct (parse_double U c a) as [? ?]
         | |- context [?r <? 0] => destruct (Z.ltb_spec r 0)
         end; simpl; try done;
    match goal with |- context [getopt_loop U options ?t ?o' ?s'] =>
      destruct (IH t o' s') as [-> ->]; done end.
Qed.

Lemma parse_args_keeps (U : util) (W : world) (argc : Z) (argv : list string)
    (trans : dma_transfer) :
  output_fd (snd (parse_args U W argc argv trans)) = output_fd trans
  ∧ input_size (snd (parse_args U W argc argv trans)) = input_size trans.
Proof.
  unfold parse_args.
  set (t := set_output_size _ _). set (g := getopt W argc argv).
  destruct (getopt_loop_keeps U (g_options g) t false false) as [H1 H2].
  repeat case_match; simpl; rewrite ?H1, ?H2; done.
Qed.

Lemma resolve_channels_keeps (trans resolved : dma_transfer) (tx rx : array_t) :
  resolve_channels trans tx rx = Some resolved →
  output_fd resolved = output_fd trans ∧ input_size resolved = input_size trans
  ∧ output_size resolved = output_size trans.
Proof.
  unfold resolve_channels. case_match.
  - destruct (tx !! 0%nat); [|done]. destruct (rx !! 0%nat); [|done].
    simpl. by intros [= <-].
  - by intros [= <-].
Qed.

(** ** The send sequence *)

(** A run that reaches the transfer stage calls [pthread_create]. *)
Lemma main_creates_thread (U : util) (W : world) (argc : Z) (argv : list string) :
  reaches_transfer U W argc argv →
  In (Call_pthread_create (pthread_create W)) (events (main U W argc argv)).
Proof.
  intros Hr. destruct (main_reaches U W argc argv Hr) as (trans & _ & Hm).
  rewrite Hm, events_after. apply in_or_app. right. rewrite transfer_stage_events.
  apply in_or_app. right. apply in_or_app. left. cbn [In]. tauto.
Qed.

(** The negation in [int]: the negation itself above [int_min]; [int_min]
    stays as it is. *)
Lemma neg_int_spec (v : Z) :
  (int_min < v < 0 → neg_int v = - v ∧ 0 < neg_int v)
  ∧ neg_int int_min = int_min.
Proof.
  split; [|reflexivity].
  unfold int_min, neg_int, wrap_int. intros Hv.
  rewrite Z.mod_small by lia. lia.
Qed.

(** The trace and the end of a run that reaches the transfer stage. *)
Lemma main_transfer_shape (U : util) (W : world) (argc : Z) (argv : list string) :
  reaches_transfer U W argc argv →
  ∃ pre t1 t2 t3,
    Forall (λ e, is_early e = true) pre
    ∧ events (main U W argc argv)
      = pre
        ++ [ Call_axidma0send (axidma_init W) t1 (sbuffer_init zero_buffer) (axidma0send W 0);
             Fprintf stdout ("success send axidma0" +:+ nl);
             Call_sleep 5; Call_sleep 5;
             Call_axidma0send (axidma_init W) t2 (sbuffer_init zero_buffer) (axidma0send W 1);
             Call_sleep 5;
             Call_axidma0send (axidma_init W) t3 (sbuffer_init zero_buffer) (axidma0send W 2);
             Call_pthread_create (pthread_create W) ]
        ++ (if pthread_create W =? 0
            then [ Call_pthread_detach; Call_axidma_destroy (axidma_init W);
                   Call_close 0 (close W 0) ]
            else [ Fprintf stdout ("pthreadrx_create fail" +:+ nl) ])
    ∧ (input_size t1, input_size t2, input_size t3) = (1000, 2000, 1800)
    ∧ out (main U W argc argv)
      = (if pthread_create W =? 0 then
           if close W 0 =? 0
           then Returned (if axidma0send W 2 <? 0 then neg_int (axidma0send W 2) else 0)
           else Aborted
         else Returned (-1)).
Proof.
  intros Hr. destruct (main_reaches U W argc argv Hr) as (trans & Hres & Hm).
  apply resolve_channels_keeps in Hres as (Hfd & _).
  destruct (parse_args_keeps U W argc argv trans_zero) as (Hfd' & _).
  rewrite Hfd' in Hfd. cbn [output_fd trans_zero] in Hfd.
  exists (early_events W ++ transfer_info U trans).
  eexists _, _, _.
  split; [|split; [|split]].
  - apply Forall_app. split; unfold early_events, transfer_info; early_events.
  - rewrite Hm, events_after, transfer_stage_events, Hfd, <- !app_assoc. reflexivity.
  - reflexivity.
  - rewrite Hm, out_after, transfer_stage_out, Hfd. reflexivity.
Qed.

(** C2, as the code has it: a run of [main] that reaches the transfer stage
    issues all three sends, of 1000, 2000 and 1800 bytes, in this order
    and whatever status any of them reports, and creates the receive
    thread after the third; the status of the first two is not looked at.
    When the thread was created and the closing succeeds, [main] returns 0
    for a last status that is not negative and otherwise the [int]
    negation of the last status: its negation when it lies above INT_MIN,
    and INT_MIN itself for INT_MIN. *)
Theorem sends_issued_whatever_status (U : util) (W : world) (argc : Z)
    (argv : list string) :
  reaches_transfer U W argc argv →
  sent (events (main U W argc argv))
  = [(1000, axidma0send W 0); (2000, axidma0send W 1); (1800, axidma0send W 2)]
  ∧ (∃ pre post,
       events (main U W argc argv)
       = pre ++ Call_pthread_create (pthread_create W) :: post
       ∧ sent pre
         = [(1000, axidma0send W 0); (2000, axidma0send W 1); (1800, axidma0send W 2)]
       ∧ sent post = [])
  ∧ (pthread_create W = 0 → close W 0 = 0 →
     out (main U W argc argv)
     = Returned (if axidma0send W 2 <? 0 then neg_int (axidma0send W 2) else 0))
  ∧ (int_min < axidma0send W 2 < 0 →
     neg_int (axidma0send W 2) = - axidma0send W 2 ∧ 0 < neg_int (axidma0send W 2))
  ∧ neg_int int_min = int_min.
Proof.
  intros Hr.
  destruct (main_transfer_shape U W argc argv Hr)
    as (pre & t1 & t2 & t3 & Hpre & Hev & Hsizes & Hout).
  injection Hsizes as S1 S2 S3.
  apply early_no_send in Hpre as (Hsent & _).
  remember (sbuffer_init zero_buffer) as sb eqn:Esb. clear Esb.
  assert (Hfront :
    sent (pre ++ [ Call_axidma0send (axidma_init W) t1 sb (axidma0send W 0);
                   Fprintf stdout ("success send axidma0" +:+ nl);
                   Call_sleep 5; Call_sleep 5;
                   Call_axidma0send (axidma_init W) t2 sb (axidma0send W 1);
                   Call_sleep 5;
                   Call_axidma0send (axidma_init W) t3 sb (axidma0send W 2) ])
    = [(1000, axidma0send W 0); (2000, axidma0send W 1); (1800, axidma0send W 2)]).
  { unfold sent in *. rewrite omap_app, Hsent. cbn [omap list_omap app].
    by rewrite S1, S2, S3. }
  assert (Hback :
    sent (if pthread_create W =? 0
          then [ Call_pthread_detach; Call_axidma_destroy (axidma_init W);
                 Call_close 0 (close W 0) ]
          else [ Fprintf stdout ("pthreadrx_create fail" +:+ nl) ]) = []).
  { by destruct (pthread_create W =? 0). }
  assert (Hsplit :
    events (main U W argc argv)
    = (pre ++ [ Call_axidma0send (axidma_init W) t1 sb (axidma0send W 0);
                Fprintf stdout ("success send axidma0" +:+ nl);
                Call_sleep 5; Call_sleep 5;
                Call_axidma0send (axidma_init W) t2 sb (axidma0send W 1);
                Call_sleep 5;
                Call_axidma0send (axidma_init W) t3 sb (axidma0send W 2) ])
      ++ Call_pthread_create (pthread_create W)
         :: (if pthread_create W =? 0
             then [ Call_pthread_detach; Call_axidma_destroy (axidma_init W);
                    Call_close 0 (close W 0) ]
             else [ Fprintf stdout ("pthreadrx_create fail" +:+ nl) ])).
  { rewrite Hev, <- !app_assoc. reflexivity. }
  split; [|split; [|split; [|split]]].
  - rewrite Hsplit. unfold sent in *. rewrite omap_app. cbn [omap list_omap].
    rewrite Hfront, Hback. reflexivity.
  - eexists _, _. split; [exact Hsplit|]. split; [exact Hfront | exact Hback].
  - intros Hc Hcl. rewrite Hout, Hc, Hcl. reflexivity.
  - apply (proj1 (neg_int_spec (axidma0send W 2))).
  - exact (proj2 (neg_int_spec 0)).
Qed.

Lemma sample_reaches_transfer :
  reaches_transfer Sample.helpers Sample.device 1 ["demo"].
Proof.
  split; [exists 0; split; [reflexivity | lia] | repeat split; discriminate].
Defined.

Lemma sends_issued_witness :
  sent (events (main Sample.helpers Sample.device 1 ["demo"]))
  = [(1000, 0); (2000, 0); (1800, 0)]
  ∧ out (main Sample.helpers Sample.device 1 ["demo"]) = Returned 0.
Proof.
  destruct (sends_issued_whatever_status Sample.helpers Sample.device 1 ["demo"]
              sample_reaches_transfer) as (H1 & _ & H3 & _).
  split; [exact H1 | exact (H3 eq_refl eq_refl)].
Defined.

(** C2 as stated fails: the first send reports -5 and the two sends after
    it are issued all the same. *)
Lemma send_failure_counterexample :
  axidma0send Sample.device_send_fails 0 = -5
  ∧ sent (events (main Sample.helpers Sample.device_send_fails 1 ["demo"]))
    = [(1000, -5); (2000, 0); (1800, 0)].
Proof. split; vm_compute; reflexivity. Qed.

(** C3, as the code has it: no run of [main] joins a thread, and none
    creates one without reaching the transfer stage.  In a run that
    reaches it the three sends come before the creation of the receive
    thread.  When the creation succeeds, [main] detaches the thread right
    away, destroys the handle and closes descriptor 0; it then returns,
    unless that [close] fails: then it stops at the assertion.  When the
    creation fails there is no thread to detach, and [main] returns -1. *)
Theorem sends_before_spawn_no_join (U : util) (W : world) (argc : Z)
    (argv : list string) :
  ¬ In Call_pthread_join (events (main U W argc argv))
  ∧ (∀ r, In (Call_pthread_create r) (events (main U W argc argv)) →
          reaches_transfer U W argc argv)
  ∧ (reaches_transfer U W argc argv →
     ∃ pre t1 t2 t3 buf,
       Forall (λ e, is_early e = true) pre
       ∧ events (main U W argc argv)
         = pre
           ++ [ Call_axidma0send (axidma_init W) t1 buf (axidma0send W 0);
                Fprintf stdout ("success send axidma0" +:+ nl);
                Call_sleep 5; Call_sleep 5;
                Call_axidma0send (axidma_init W) t2 buf (axidma0send W 1);
                Call_sleep 5;
                Call_axidma0send (axidma_init W) t3 buf (axidma0send W 2);
                Call_pthread_create (pthread_create W) ]
           ++ (if pthread_create W =? 0
               then [ Call_pthread_detach; Call_axidma_destroy (axidma_init W);
                      Call_close 0 (close W 0) ]
               else [ Fprintf stdout ("pthreadrx_create fail" +:+ nl) ])
       ∧ (input_size t1, input_size t2, input_size t3) = (1000, 2000, 1800)
       ∧ out (main U W argc argv)
         = (if pthread_create W =? 0 then
              if close W 0 =? 0
              then Returned (if axidma0send W 2 <? 0
                             then neg_int (axidma0send W 2) else 0)
              else Aborted
            else Returned (-1))).
Proof.
  split; [|split].
  - intros Hin. destruct (reaches_transfer_dec U W argc argv) as [Hr|Hn].
    + destruct (main_transfer_shape U W argc argv Hr)
        as (pre & t1 & t2 & t3 & Hpre & Hev & _).
      rewrite Hev in Hin. clear Hev.
      remember (sbuffer_init zero_buffer) as sb eqn:Esb. clear Esb.
      apply in_app_or in Hin as [Hin|Hin].
      * rewrite Forall_forall in Hpre. apply list_elem_of_In, Hpre in Hin. discriminate Hin.
      * apply in_app_or in Hin as [Hin|Hin].
        -- cbn [In] in Hin. repeat (destruct Hin as [Hin|Hin]; [discriminate Hin|]). done.
        -- destruct (pthread_create W =? 0); cbn [In] in Hin;
             repeat (destruct Hin as [Hin|Hin]; [discriminate Hin|]); done.
    + destruct (main_stops U W argc argv Hn) as (He & _).
      apply early_no_send in He as (_ & _ & _ & _ & He).
      apply He in Hin. discriminate Hin.
  - intros r Hin. destruct (reaches_transfer_dec U W argc argv) as [Hr|Hn]; [done|].
    destruct (main_stops U W argc argv Hn) as (He & _).
    apply early_no_send in He as (_ & _ & _ & _ & He).
    apply He in Hin. discriminate Hin.
  - intros Hr.
    destruct (main_transfer_shape U W argc argv Hr)
      as (pre & t1 & t2 & t3 & Hpre & Hev & Hsizes & Hout).
    exists pre, t1, t2, t3, (sbuffer_init zero_buffer). done.
Qed.

Lemma sends_before_spawn_witness :
  ∃ pre t1 t2 t3 buf,
    Forall (λ e, is_early e = true) pre
    ∧ events (main Sample.helpers Sample.device 1 ["demo"])
      = pre
        ++ [ Call_axidma0send (axidma_init Sample.device) t1 buf (axidma0send Sample.device 0);
             Fprintf stdout ("success send axidma0" +:+ nl);
             Call_sleep 5; Call_sleep 5;
             Call_axidma0send (axidma_init Sample.device) t2 buf (axidma0send Sample.device 1);
             Call_sleep 5;
             Call_axidma0send (axidma_init Sample.device) t3 buf (axidma0send Sample.device 2);
             Call_pthread_create (pthread_create Sample.device) ]
        ++ (if pthread_create Sample.device =? 0
            then [ Call_pthread_detach; Call_axidma_destroy (axidma_init Sample.device);
                   Call_close 0 (close Sample.device 0) ]
            else [ Fprintf stdout ("pthreadrx_create fail" +:+ nl) ])
    ∧ (input_size t1, input_size t2, input_size t3) = (1000, 2000, 1800)
    ∧ out (main Sample.helpers Sample.device 1 ["demo"])
      = (if pthread_create Sample.device =? 0 then
           if close Sample.device 0 =? 0
           then Returned (if axidma0send Sample.device 2 <? 0
                          then neg_int (axidma0send Sample.device 2) else 0)
           else Aborted
         else Returned (-1)).
Proof.
  exact (proj2 (proj2 (sends_before_spawn_no_join Sample.helpers Sample.device 1 ["demo"]))
               sample_reaches_transfer).
Defined.

(** C3 as stated fails: when the [close] of the cleanup fails, [main]
    detaches the thread and then stops at the assertion instead of
    returning; and when [pthread_create] fails it returns without having
    detached anything. *)
Lemma detach_and_return_counterexample :
  (let W := Build_world Posix.getopt 7 (λ _, [2]) (λ _, [1]) (λ _, 0) (λ _, (0, [])) 0
                        (λ _, -1) in
   detached (events (main Sample.helpers W 1 ["demo"])) = true
   ∧ out (main Sample.helpers W 1 ["demo"]) = Aborted)
  ∧ (let W := Build_world Posix.getopt 7 (λ _, [2]) (λ _, [1]) (λ _, 0) (λ _, (0, [])) 11
                          (λ _, 0) in
     detached (events (main Sample.helpers W 1 ["demo"])) = false
     ∧ out (main Sample.helpers W 1 ["demo"]) = Returned (-1)).
Proof. vm_compute. repeat split; reflexivity. Qed.

(** ** The receive task *)

Lemma hex_dump_prints (rec_len : Z) (rbuffer : buffer) (dump : list event) :
  hex_dump rec_len rbuffer = Some dump → Forall (λ e, is_print e = true) dump.
Proof.
  unfold hex_dump.
  pose (P := λ (_ : Z) (acc : option (list event)),
               ∀ d, acc = Some d → Forall (λ e, is_print e = true) d).
  assert (H : P (0 + Z.of_nat (Z.to_nat rec_len))
                (for_loop (Z.to_nat rec_len) 0 (dump_byte rbuffer) (Some []))).
  { apply for_loop_invariant; unfold P.
    - intros d [= <-]. constructor.
    - intros j acc _ IH d. unfold dump_byte.
      destruct acc as [evs|]; [|done]. cbn [mbind option_bind].
      destruct (rbuffer !! Z.to_nat j) as [b|]; [|done]. cbn [mbind option_bind].
      intros [= <-]. apply Forall_app. split; [by apply IH|].
      destruct (j mod 16 =? 0); early_events. }
  intros Hd. by apply H.
Qed.

Lemma prints_no_transfer (evs : list event) :
  Forall (λ e, is_print e = true) evs →
  acquired evs = [] ∧ released evs = [] ∧ send_devs evs = [] ∧ read_devs evs = [].
Proof.
  intros H. destruct (prints_hold_no_handle evs H) as (H1 & H2 & H3).
  apply early_no_send in H3 as (_ & H4 & H5 & _). done.
Qed.

(** The loop receives on the handle it was given, and does nothing else
    with a handle; it does not end by itself. *)
Lemma receive_loop_shows (W : world) (dev : axidma_dev_t) (trans : dma_transfer)
    (n k : nat) (rbuffer : buffer) :
  let r := receive_loop W dev trans n k rbuffer in
  Forall (λ h, h = dev) (read_devs (events r))
  ∧ send_devs (events r) = [] ∧ acquired (events r) = [] ∧ released (events r) = []
  ∧ (out r = Running ∨ out r = Undefined).
Proof.
  revert k rbuffer. induction n as [|n IH]; intros k rbuffer; cbn [receive_loop].
  - simpl. split; [constructor | eauto 10].
  - destruct (axidma0read W k) as [rec_len data].
    destruct (hex_dump rec_len (store data rbuffer)) as [dump|] eqn:Ed.
    + destruct (IH (S k) (store data rbuffer)) as (I1 & I2 & I3 & I4 & I5).
      destruct (prints_no_transfer dump (hex_dump_prints _ _ _ Ed)) as (D1 & D2 & D3 & D4).
      rewrite events_after, out_after.
      unfold read_devs, send_devs, acquired, released in *.
      rewrite !omap_app, D1, D2, D3, D4, I2, I3, I4. cbn [omap list_omap app].
      split; [by constructor | done].
    + simpl. split; [by repeat constructor | eauto 10].
Qed.

(** The receive task either stops before its loop, or is in its loop on
    the handle its own call of [axidma_init] returned. *)
Lemma rapidio_taks_rec_cases (U : util) (W : world) (argc : Z) (argv : list string)
    (n : nat) :
  let r := rapidio_taks_rec U W argc argv n in
  (stops_early W r)
  ∨ (acquired (events r) = [axidma_init W] ∧ released (events r) = []
     ∧ Forall (λ h, h = axidma_init W) (read_devs (events r))
     ∧ send_devs (events r) = []
     ∧ (out r = Running ∨ out r = Undefined)).
Proof.
  intros r. subst r. unfold rapidio_taks_rec.
  destruct (task_cases U W argc argv
              (λ _ dev trans, receive_loop W dev trans n 0 zero_buffer))
    as [((_ & Hdev & _) & trans & _ & ->)|[_ Hs]]; [right | by left].
  destruct (receive_loop_shows W (axidma_init W) trans n 0 zero_buffer)
    as (I1 & I2 & I3 & I4 & I5).
  rewrite events_after, out_after.
  unfold read_devs, send_devs, acquired, released in *.
  rewrite !omap_app, I2, I3, I4. cbn [omap list_omap app].
  destruct (Z.eqb_spec (axidma_init W) NULL); [done|].
  done.
Qed.

(** ** Handles *)

(** C1, as the code has it: each task works on a handle of its own.
    [main] calls [axidma_init] at most once and issues every send on the
    handle that call returned; the receive task is not given that handle:
    it calls [axidma_init] itself and issues every receive on the handle
    its own call returned.  Unless the creation of the thread failed,
    [main] gives back, once, each handle it got.  The receive task gives
    its handle back only when it stops before its loop; inside the loop it
    holds it. *)
Theorem each_task_on_its_own_handle (U : util) (Wmain Wrec : world) (argc : Z)
    (argv argv_rec : list string) (n : nat) :
  let p := run_process U Wmain Wrec argc argv argv_rec n in
  let m := events (primary p) in
  (acquired m = [] ∨ acquired m = [axidma_init Wmain])
  ∧ Forall (λ h, h = axidma_init Wmain) (send_devs m)
  ∧ read_devs m = []
  ∧ ((∀ r, In (Call_pthread_create r) m → r = 0) → released m = acquired m)
  ∧ (∀ rec, receiver p = Some rec →
       (acquired (events rec) = [] ∨ acquired (events rec) = [axidma_init Wrec])
       ∧ Forall (λ h, h = axidma_init Wrec) (read_devs (events rec))
       ∧ send_devs (events rec) = []
       ∧ (out rec = Running →
          acquired (events rec) = [axidma_init Wrec] ∧ released (events rec) = [])).
Proof.
  intros p m. subst m p. unfold run_process. cbn [primary receiver].
  assert (Hmain :
    (acquired (events (main U Wmain argc argv)) = []
     ∨ acquired (events (main U Wmain argc argv)) = [axidma_init Wmain])
    ∧ Forall (λ h, h = axidma_init Wmain) (send_devs (events (main U Wmain argc argv)))
    ∧ read_devs (events (main U Wmain argc argv)) = []
    ∧ ((∀ r, In (Call_pthread_create r) (events (main U Wmain argc argv)) → r = 0) →
       released (events (main U Wmain argc argv))
       = acquired (events (main U Wmain argc argv)))).
  { destruct (reaches_transfer_dec U Wmain argc argv) as [Hr|Hn].
    - destruct (main_reaches U Wmain argc argv Hr) as (trans & _ & Hm).
      pose proof (main_creates_thread U Wmain argc argv Hr) as Hc.
      rewrite Hm in *. rewrite events_after in *.
      destruct (transfer_stage_shows U Wmain (sbuffer_init zero_buffer)
                  (axidma_init Wmain) trans) as (_ & T2 & _ & T4 & T5 & T6).
      destruct Hr as (_ & Hdev & _).
      unfold read_devs, send_devs, acquired, released in *.
      rewrite !omap_app, T2, T4, T5, T6. unfold early_events. cbn [omap list_omap app].
      destruct (Z.eqb_spec (axidma_init Wmain) NULL); [done|].
      split; [by right|]. split; [by repeat constructor|]. split; [done|].
      intros Hall. rewrite (Hall _ Hc). reflexivity.
    - destruct (main_stops U Wmain argc argv Hn) as (He & Hrel & Hacq & _).
      apply early_no_send in He as (_ & H2 & H3 & _).
      rewrite H2, H3. split; [done|]. split; [constructor|]. done. }
  destruct Hmain as (M1 & M2 & M3 & M4).
  split; [done|]. split; [done|]. split; [done|]. split; [done|].
  intros rec Hrec. destruct (spawned (main U Wmain argc argv)); [|done].
  injection Hrec as <-.
  destruct (rapidio_taks_rec_cases U Wrec 0 argv_rec n)
    as [(He & Hrel & Hacq & Hrun & _)|(R1 & R2 & R3 & R4 & R5)].
  - apply early_no_send in He as (_ & H2 & H3 & _).
    rewrite H2, H3. split; [done|]. split; [constructor|]. done.
  - rewrite R1, R2, R4. split; [by right|]. done.
Qed.

Lemma each_task_witness :
  released (events (main Sample.helpers Sample.device 1 ["demo"])) = [7]
  ∧ acquired (events (rapidio_taks_rec Sample.helpers Sample.device_rec 0 [] 2)) = [9]
  ∧ released (events (rapidio_taks_rec Sample.helpers Sample.device_rec 0 [] 2)) = [].
Proof.
  destruct (each_task_on_its_own_handle Sample.helpers Sample.device Sample.device_rec
              1 ["demo"] [] 2) as (_ & _ & _ & H4 & H5).
  split.
  - cbn zeta in H4. unfold run_process in H4. cbn [primary] in H4.
    rewrite H4; [vm_compute; reflexivity|].
    intros r Hin. vm_compute in Hin.
    repeat (destruct Hin as [Hin|Hin]; [try discriminate Hin|]); [|done].
    by injection Hin.
  - apply (H5 (rapidio_taks_rec Sample.helpers Sample.device_rec 0 [] 2));
      vm_compute; reflexivity.
Defined.

(** C1 as stated fails: in a run where everything succeeds, two handles
    are acquired; the sends go to the one [main] got, the receives to the
    one the receive task got; [main] gives its handle back, the receive
    task, in its loop, does not. *)
Lemma one_handle_counterexample :
  let p := run_process Sample.helpers Sample.device Sample.device_rec 1 ["demo"] [] 2 in
  acquired (all_events p) = [7; 9]
  ∧ send_devs (all_events p) = [7; 7; 7]
  ∧ read_devs (all_events p) = [9; 9]
  ∧ released (all_events p) = [7]
  ∧ (out <$> receiver p) = Some Running.
Proof. vm_compute. repeat split; reflexivity. Qed.

(** ** Argument validation *)

(** [main] after [parse_args] returned a negative code: 1, and nothing
    but what [parse_args] printed. *)
Lemma main_rejects (U : util) (W : world) (argc : Z) (argv : list string)
    (rc : Z) (evs : list event) :
  fst (parse_args U W argc argv trans_zero) = Build_run (Returned rc) evs →
  rc < 0 →
  main U W argc argv
  = Build_run (Returned 1) (Call_axidma_config :: Call_XDma_Out32 4 1 :: evs).
Proof.
  intros Hp Hrc. unfold main, setup.
  destruct (parse_args U W argc argv trans_zero) as [args trans].
  cbn [fst] in Hp. subst args. cbn [out events].
  destruct (Z.ltb_spec rc 0); [|lia].
  unfold after. cbn [out events]. by rewrite app_nil_r.
Qed.

(** [main] after [parse_args] left through [exit]. *)
Lemma main_exits (U : util) (W : world) (argc : Z) (argv : list string)
    (status : Z) (evs : list event) :
  fst (parse_args U W argc argv trans_zero) = Build_run (Exited status) evs →
  main U W argc argv
  = Build_run (Exited status) (Call_axidma_config :: Call_XDma_Out32 4 1 :: evs).
Proof.
  intros Hp. unfold main, setup.
  destruct (parse_args U W argc argv trans_zero) as [args trans].
  cbn [fst] in Hp. subst args. cbn [out events].
  unfold after. cbn [out events]. by rewrite app_nil_r.
Qed.

Lemma last_int_absent (U : util) (c : ascii) (options : list (ascii * string)) (d : Z) :
  supplied c options = false → last_int U c options d = d.
Proof.
  unfold supplied, last_int. revert d.
  induction options as [|o options IH]; intros d; simpl; [done|].
  destruct (Ascii.eqb (fst o) c); simpl; [done|]. apply IH.
Qed.

(** Without [-h] and with values that parse, either all options are
    among the four and the loop runs to its end, or the loop stops at the
    first other one with -EINVAL and the usage. *)
Lemma acceptable_cases (U : util) (options : list (ascii * string)) :
  Forall (acceptable U) options →
  (forallb (λ o, known (fst o)) options = true ∧ Forall (parses U) options)
  ∨ (forallb (λ o, known (fst o)) options = false
     ∧ ∀ trans o s,
         p_exit (getopt_loop U options trans o s) = Some (Returned (- EINVAL))
         ∧ p_events (getopt_loop U options trans o s) = print_usage false).
Proof.
  induction options as [|[c a] options IH]; intros Hall.
  - left. split; [done | constructor].
  - apply Forall_cons in Hall as [Hc Hall]. specialize (IH Hall).
    unfold acceptable in Hc. cbn [forallb fst]. unfold known.
    destruct (Ascii.eqb_spec c "t") as [->|Ht].
    { cbn in Hc |- *. destruct IH as [[K P]|[K E]].
      - left. split; [done|]. by apply Forall_cons_2.
      - right. split; [done|]. intros trans o s.
        destruct (parse_int U "t" a) as [rc v]. cbn [fst] in Hc.
        destruct (Z.ltb_spec rc 0); [lia|]. apply E. }
    destruct (Ascii.eqb_spec c "r") as [->|Hr].
    { cbn in Hc |- *. destruct IH as [[K P]|[K E]].
      - left. split; [done|]. by apply Forall_cons_2.
      - right. split; [done|]. intros trans o s.
        destruct (parse_int U "r" a) as [rc v]. cbn [fst] in Hc.
        destruct (Z.ltb_spec rc 0); [lia|]. apply E. }
    destruct (Ascii.eqb_spec c "s") as [->|Hs].
    { cbn in Hc |- *. destruct IH as [[K P]|[K E]].
      - left. split; [done|]. by apply Forall_cons_2.
      - right. split; [done|]. intros trans o s.
        destruct (parse_int U "s" a) as [rc v]. cbn [fst] in Hc.
        destruct (Z.ltb_spec rc 0); [lia|]. apply E. }
    destruct (Ascii.eqb_spec c "o") as [->|Ho].
    { cbn in Hc |- *. destruct IH as [[K P]|[K E]].
      - left. split; [done|]. by apply Forall_cons_2.
      - right. split; [done|]. intros trans o s.
        destruct (parse_double U "o" a) as [rc v]. cbn [fst] in Hc.
        destruct (Z.ltb_spec rc 0); [lia|]. apply E. }
    cbn [orb andb] in Hc |- *. right. split; [done|]. intros trans o s.
    cbn [getopt_loop].
    destruct (Ascii.eqb_spec c "t"); [done|]. destruct (Ascii.eqb_spec c "r"); [done|].
    destruct (Ascii.eqb_spec c "s"); [done|]. destruct (Ascii.eqb_spec c "o"); [done|].
    rewrite Hc. done.
Qed.

Lemma parse_args_stopped (U : util) (W : world) (argc : Z) (argv : list string)
    (trans : dma_transfer) :
  (∀ t o s,
     p_exit (getopt_loop U (g_options (getopt W argc argv)) t o s)
     = Some (Returned (- EINVAL))
     ∧ p_events (getopt_loop U (g_options (getopt W argc argv)) t o s)
       = print_usage false) →
  fst (parse_args U W argc argv trans)
  = Build_run (Returned (- EINVAL)) [Fprintf stderr usage_line].
Proof.
  intros H. unfold parse_args.
  set (t := set_output_size _ _).
  destruct (H t false false) as [-> ->]. reflexivity.
Qed.

(** C6, as the code has it: when no option is -h, the values of the
    options parse, and exactly one of -t and -r leaves a channel other
    than -1 (the other is absent, or given as -1), [parse_args] returns
    the negative code -EINVAL and prints the usage on standard error,
    behind its pairing diagnostic when every option is one of -t, -r, -s,
    -o; [main] then returns 1 without touching the device. *)
Theorem unpaired_channel_rejected (U : util) (W : world) (argc : Z)
    (argv : list string) :
  let options := g_options (getopt W argc argv) in
  let tx := last_int U "t" options (-1) in
  let rx := last_int U "r" options (-1) in
  let diag := if forallb (λ o, known (fst o)) options
              then [Fprintf stderr pair_error] else [] in
  Forall (acceptable U) options →
  (tx ≠ -1 ∧ rx = -1) ∨ (tx = -1 ∧ rx ≠ -1) →
  fst (parse_args U W argc argv trans_zero)
  = Build_run (Returned (- EINVAL)) (diag ++ [Fprintf stderr usage_line])
  ∧ - EINVAL < 0
  ∧ main U W argc argv
    = Build_run (Returned 1)
        (Call_axidma_config :: Call_XDma_Out32 4 1
         :: diag ++ [Fprintf stderr usage_line]).
Proof.
  intros options tx rx diag Hall Hone.
  assert (Hp : fst (parse_args U W argc argv trans_zero)
               = Build_run (Returned (- EINVAL)) (diag ++ [Fprintf stderr usage_line])).
  { subst diag. destruct (acceptable_cases U options Hall) as [[-> Hparse]|[-> Hstop]].
    - rewrite parse_args_checks by done.
      unfold parsed_trans. cbn [input_channel output_channel].
      fold options. fold tx. fold rx.
      destruct (Z.eqb_spec tx (-1)), (Z.eqb_spec rx (-1)); cbn [xorb fst]; try done; lia.
    - by apply parse_args_stopped. }
  split; [done|]. split; [unfold EINVAL; lia|].
  apply (main_rejects U W argc argv (- EINVAL) _ Hp). unfold EINVAL; lia.
Qed.

Lemma unpaired_channel_witness :
  main Sample.helpers Sample.device 3 ["demo"; "-t"; "1"]
  = Build_run (Returned 1)
      [ Call_axidma_config; Call_XDma_Out32 4 1;
        Fprintf stderr pair_error; Fprintf stderr usage_line ].
Proof.
  apply (unpaired_channel_rejected Sample.helpers Sample.device 3 ["demo"; "-t"; "1"]).
  - all_parse.
  - left. split; [discriminate | reflexivity].
Defined.

(** C6 as stated fails: [-t -1] supplies -t alone with a value that
    parses, and the arguments are accepted; [-t 3 -h] supplies -t alone and
    the program prints its help and exits with status 0. *)
Lemma unpaired_channel_counterexample :
  g_options (Posix.getopt 3 ["demo"; "-t"; "-1"]) = [("t"%char, "-1")]
  ∧ parse_int Sample.helpers "t" "-1" = (0, -1)
  ∧ fst (parse_args Sample.helpers Sample.device 3 ["demo"; "-t"; "-1"] trans_zero)
    = Build_run (Returned 0) []
  ∧ sent (events (main Sample.helpers Sample.device 3 ["demo"; "-t"; "-1"]))
    = [(1000, 0); (2000, 0); (1800, 0)]
  ∧ g_options (Posix.getopt 4 ["demo"; "-t"; "3"; "-h"]) = [("t"%char, "3"); ("h"%char, EmptyString)]
  ∧ out (main Sample.helpers Sample.device 4 ["demo"; "-t"; "3"; "-h"]) = Exited 0.
Proof. vm_compute. repeat split; reflexivity. Qed.

(** C7: when both -s and -o are among the options, in any order, with
    values that parse, validation fails: [parse_args] returns the negative
    code -EINVAL and prints the usage on standard error, behind a
    diagnostic of its own when every option is one of -t, -r, -s, -o: the
    one about -s and -o, unless the channel pairing already failed; [main]
    then returns 1 without touching the device.  The vectors are those
    validation is run on: -h, which prints the help and leaves before any
    check, is not among the options. *)
Theorem both_sizes_rejected (U : util) (W : world) (argc : Z) (argv : list string) :
  let options := g_options (getopt W argc argv) in
  let diag := if forallb (λ o, known (fst o)) options
              then [Fprintf stderr
                      (if xorb (last_int U "t" options (-1) =? -1)
                               (last_int U "r" options (-1) =? -1)
                       then pair_error else exclusive_error)]
              else [] in
  Forall (acceptable U) options →
  supplied "s" options = true → supplied "o" options = true →
  fst (parse_args U W argc argv trans_zero)
  = Build_run (Returned (- EINVAL)) (diag ++ [Fprintf stderr usage_line])
  ∧ - EINVAL < 0
  ∧ main U W argc argv
    = Build_run (Returned 1)
        (Call_axidma_config :: Call_XDma_Out32 4 1
         :: diag ++ [Fprintf stderr usage_line]).
Proof.
  intros options diag Hall Hs Ho.
  assert (Hp : fst (parse_args U W argc argv trans_zero)
               = Build_run (Returned (- EINVAL)) (diag ++ [Fprintf stderr usage_line])).
  { subst diag. destruct (acceptable_cases U options Hall) as [[-> Hparse]|[-> Hstop]].
    - rewrite parse_args_checks by done.
      unfold parsed_trans. cbn [input_channel output_channel].
      fold options. rewrite Hs, Ho.
      destruct (xorb _ _); reflexivity.
    - by apply parse_args_stopped. }
  split; [done|]. split; [unfold EINVAL; lia|].
  apply (main_rejects U W argc argv (- EINVAL) _ Hp). unfold EINVAL; lia.
Qed.

Lemma both_sizes_witness :
  main Sample.helpers Sample.device 5 ["demo"; "-o"; "1"; "-s"; "1"]
  = Build_run (Returned 1)
      [ Call_axidma_config; Call_XDma_Out32 4 1;
        Fprintf stderr exclusive_error; Fprintf stderr usage_line ].
Proof.
  apply (both_sizes_rejected Sample.helpers Sample.device 5 ["demo"; "-o"; "1"; "-s"; "1"]).
  - all_parse.
  - reflexivity.
  - reflexivity.
Defined.

(** The three ways the option loop ends: at its end, and then every
    option was one of the four with a value that parses; through [exit]
    at a -h; or with a negative code and the short usage. *)
Lemma getopt_loop_ends (U : util) (options : list (ascii * string))
    (trans : dma_transfer) (o s : bool) :
  let p := getopt_loop U options trans o s in
  (p_exit p = None ∧ Forall (parses U) options)
  ∨ (p_exit p = Some (Exited 0) ∧ p_events p = print_usage true
     ∧ supplied "h" options = true)
  ∨ (∃ rc, p_exit p = Some (Returned rc) ∧ rc < 0 ∧ p_events p = print_usage false).
Proof.
  revert trans o s.
  induction options as [|[c a] options IH]; intros trans o s.
  - left. split; [done | constructor].
  - assert (Hstep : ∀ t' o' s',
      (c = "t"%char ∧ 0 ≤ fst (parse_int U c a)) ∨ (c = "r"%char ∧ 0 ≤ fst (parse_int U c a))
      ∨ (c = "s"%char ∧ 0 ≤ fst (parse_int U c a))
      ∨ (c = "o"%char ∧ 0 ≤ fst (parse_double U c a)) →
      let p := getopt_loop U options t' o' s' in
      (p_exit p = None ∧ Forall (parses U) ((c, a) :: options))
      ∨ (p_exit p = Some (Exited 0) ∧ p_events p = print_usage true
         ∧ supplied "h" ((c, a) :: options) = true)
      ∨ (∃ rc, p_exit p = Some (Returned rc) ∧ rc < 0 ∧ p_events p = print_usage false)).
    { intros t' o' s' Hc.
      destruct (IH t' o' s') as [[E P]|[(E & E' & Hh)|E]].
      - left. split; [done|]. apply Forall_cons_2; [|done].
        destruct Hc as [[-> Hc]|[[-> Hc]|[[-> Hc]|[-> Hc]]]]; exact Hc.
      - right. left. split; [done|]. split; [done|].
        unfold supplied in *. cbn [existsb fst]. rewrite Hh. apply orb_true_r.
      - right. right. exact E. }
    cbn [getopt_loop].
    destruct (Ascii.eqb_spec c "t") as [Ht|Ht].
    { destruct (parse_int U c a) as [rc v] eqn:E.
      destruct (Z.ltb_spec rc 0) as [Hrc|Hrc].
      - right. right. by exists rc.
      - apply Hstep. left. split; [exact Ht | exact Hrc]. }
    destruct (Ascii.eqb_spec c "r") as [Hr|Hr].
    { destruct (parse_int U c a) as [rc v] eqn:E.
      destruct (Z.ltb_spec rc 0) as [Hrc|Hrc].
      - right. right. by exists rc.
      - apply Hstep. right. left. split; [exact Hr | exact Hrc]. }
    destruct (Ascii.eqb_spec c "s") as [Hs|Hs].
    { destruct (parse_int U c a) as [rc v] eqn:E.
      destruct (Z.ltb_spec rc 0) as [Hrc|Hrc].
      - right. right. by exists rc.
      - apply Hstep. do 2 right. left. split; [exact Hs | exact Hrc]. }
    destruct (Ascii.eqb_spec c "o") as [Ho|Ho].
    { destruct (parse_double U c a) as [rc v] eqn:E.
      destruct (Z.ltb_spec rc 0) as [Hrc|Hrc].
      - right. right. by exists rc.
      - apply Hstep. do 3 right. split; [exact Ho | exact Hrc]. }
    destruct (Ascii.eqb_spec c "h") as [->|Hh].
    + right. left. done.
    + right. right. exists (- EINVAL). done.
Qed.

(** [parse_args] returns 0 exactly when every option is one of the four
    with a value that parses and the three checks behind the loop pass;
    it has then printed nothing. *)
Lemma parse_args_accepts (U : util) (W : world) (argc : Z) (argv : list string) :
  let g := getopt W argc argv in
  let options := g_options g in
  out (fst (parse_args U W argc argv trans_zero)) = Returned 0
  ↔ Forall (parses U) options
    ∧ (last_int U "t" options (-1) = -1 ↔ last_int U "r" options (-1) = -1)
    ∧ supplied "s" options && supplied "o" options = false
    ∧ argc - g_optind g ≤ 2.
Proof.
  intros g options.
  assert (Hchecks : Forall (parses U) options →
    out (fst (parse_args U W argc argv trans_zero)) = Returned 0
    ↔ (last_int U "t" options (-1) = -1 ↔ last_int U "r" options (-1) = -1)
      ∧ supplied "s" options && supplied "o" options = false
      ∧ argc - g_optind g ≤ 2).
  { intros Hall. rewrite parse_args_checks by done.
    unfold parsed_trans. cbn [input_channel output_channel]. fold g. fold options.
    destruct (Z.eqb_spec (last_int U "t" options (-1)) (-1)),
             (Z.eqb_spec (last_int U "r" options (-1)) (-1)); cbn [xorb fst out];
      try (split; [discriminate | tauto]);
      (destruct (supplied "s" options && supplied "o" options); cbn [fst out];
       [split; [discriminate | intros (_ & ? & _); discriminate]|]);
      (destruct (Z.ltb_spec (g_optind g) (argc - 2)); cbn [fst out];
       [split; [discriminate | lia] | split; [intros _; repeat split; try tauto; lia | done]]). }
  split.
  - intros Hout.
    assert (Hall : Forall (parses U) options).
    { revert Hout. unfold parse_args. fold g. fold options.
      set (t := set_output_size _ _).
      destruct (getopt_loop_ends U options t false false)
        as [[E P]|[(E & _)|(rc & E & Hrc & _)]]; [done|..]; rewrite E; cbn [fst out].
      - discriminate.
      - intros [= ->]. lia. }
    split; [done|]. by apply Hchecks.
  - intros (Hall & Hrest). by apply Hchecks.
Qed.

(** C8, as the code has it: the allowance for arguments left behind the
    options is two.  With more than two left, validation fails for every
    argument vector without -h: a negative code, and the usage last on
    standard error.  With zero, one or two left this check passes, and
    the complaint about too many arguments is never printed; validation as
    a whole then still fails when an option is not one of -t, -r, -s, -o,
    a value does not parse, or the pairing of -t and -r or the exclusion
    of -s and -o fails.  So [parse_args] returns 0 exactly when the
    options are among the four with values that parse, the two checks
    before this one pass and at most two arguments are left; and it ends
    in no other way than with 0, with a negative code, or through the
    [exit(0)] of a -h. *)
Theorem trailing_arguments_allowance (U : util) (W : world) (argc : Z)
    (argv : list string) :
  let g := getopt W argc argv in
  let options := g_options g in
  let trailing := argc - g_optind g in
  (In (Fprintf stderr too_many_error) (events (fst (parse_args U W argc argv trans_zero))) →
   2 < trailing)
  ∧ (Forall (parses U) options →
     (last_int U "t" options (-1) = -1 ↔ last_int U "r" options (-1) = -1) →
     supplied "s" options && supplied "o" options = false →
     (trailing ≤ 2 →
      fst (parse_args U W argc argv trans_zero) = Build_run (Returned 0) [])
     ∧ (2 < trailing →
        fst (parse_args U W argc argv trans_zero)
        = Build_run (Returned (- EINVAL))
            [Fprintf stderr too_many_error; Fprintf stderr usage_line]))
  ∧ (supplied "h" options = false → 2 < trailing →
     ∃ rc evs,
       fst (parse_args U W argc argv trans_zero)
       = Build_run (Returned rc) (evs ++ [Fprintf stderr usage_line])
       ∧ rc < 0)
  ∧ (out (fst (parse_args U W argc argv trans_zero)) = Returned 0
     ↔ Forall (parses U) options
       ∧ (last_int U "t" options (-1) = -1 ↔ last_int U "r" options (-1) = -1)
       ∧ supplied "s" options && supplied "o" options = false
       ∧ trailing ≤ 2)
  ∧ (out (fst (parse_args U W argc argv trans_zero)) = Returned 0
     ∨ (∃ rc, out (fst (parse_args U W argc argv trans_zero)) = Returned rc ∧ rc < 0)
     ∨ (out (fst (parse_args U W argc argv trans_zero)) = Exited 0
        ∧ supplied "h" options = true)).
Proof.
  intros g options trailing.
  split; [apply parse_args_too_many|]. split; [|split; [|split]].
  - intros Hall Hpair Hexcl.
    rewrite parse_args_checks by done. unfold parsed_trans. cbn [input_channel output_channel].
    fold g. fold options. rewrite Hexcl.
    replace (xorb _ _) with false.
    2:{ destruct (Z.eqb_spec (last_int U "t" options (-1)) (-1)),
                 (Z.eqb_spec (last_int U "r" options (-1)) (-1)); cbn [xorb]; tauto. }
    subst trailing.
    split; intros Ht; destruct (Z.ltb_spec (g_optind g) (argc - 2)); try lia; reflexivity.
  - intros Hh Ht.
    assert (Hneg : - EINVAL < 0) by (unfold EINVAL; lia).
    pose proof (getopt_loop_ends U options (set_output_size (-1)
                  (set_output_channel (-1) (set_input_channel (-1) trans_zero))) false false)
      as [[E P]|[(_ & _ & Hh')|(rc & E & Hrc & E')]].
    + rewrite parse_args_checks by done. fold g. fold options. rewrite print_usage_stderr.
      subst trailing. destruct (Z.ltb_spec (g_optind g) (argc - 2)); [|lia].
      exists (- EINVAL). repeat case_match; cbn [fst]; (eexists [_]); by split.
    + fold options in Hh'. congruence.
    + exists rc, []. split; [|done]. unfold parse_args. fold g. fold options.
      rewrite E, E'. reflexivity.
  - apply parse_args_accepts.
  - unfold parse_args. fold g. fold options.
    set (t := set_output_size _ _).
    destruct (getopt_loop_ends U options t false false)
      as [[E P]|[(E & _ & Hh)|(rc & E & Hrc & _)]]; rewrite E; cbn [fst out].
    + repeat case_match; cbn [fst out]; eauto;
        right; left; exists (- EINVAL); (split; [done | unfold EINVAL; lia]).
    + right. right. done.
    + right. left. by exists rc.
Qed.

Lemma trailing_arguments_witness :
  fst (parse_args Sample.helpers Sample.device 3 ["demo"; "in"; "out"] trans_zero)
  = Build_run (Returned 0) []
  ∧ fst (parse_args Sample.helpers Sample.device 4 ["demo"; "in"; "out"; "more"] trans_zero)
    = Build_run (Returned (- EINVAL))
        [Fprintf stderr too_many_error; Fprintf stderr usage_line]
  ∧ ∃ rc evs,
      fst (parse_args Sample.helpers Sample.device 6
             ["demo"; "-t"; "1"; "in"; "out"; "more"] trans_zero)
      = Build_run (Returned rc) (evs ++ [Fprintf stderr usage_line])
      ∧ rc < 0.
Proof.
  split; [|split].
  - apply (trailing_arguments_allowance Sample.helpers Sample.device 3 ["demo"; "in"; "out"]).
    + all_parse.
    + done.
    + reflexivity.
    + vm_compute. discriminate.
  - apply (trailing_arguments_allowance Sample.helpers Sample.device 4
             ["demo"; "in"; "out"; "more"]).
    + all_parse.
    + done.
    + reflexivity.
    + vm_compute. reflexivity.
  - apply (trailing_arguments_allowance Sample.helpers Sample.device 6
             ["demo"; "-t"; "1"; "in"; "out"; "more"]).
    + reflexivity.
    + vm_compute. reflexivity.
Defined.

(** C8 as stated fails: [-t 1] leaves no argument behind the options, and
    validation fails all the same, on the pairing of -t and -r. *)
Lemma trailing_allowance_counterexample :
  3 - g_optind (Posix.getopt 3 ["demo"; "-t"; "1"]) = 0
  ∧ fst (parse_args Sample.helpers Sample.device 3 ["demo"; "-t"; "1"] trans_zero)
    = Build_run (Returned (- EINVAL))
        [Fprintf stderr pair_error; Fprintf stderr usage_line].
Proof. vm_compute. split; reflexivity. Qed.

(** C10: [-t -1 -r -1] is accepted and leaves the descriptor that no
    channel option at all leaves, both channels -1; the run of [main] is
    the same in both cases, and channel resolution puts the first channel
    of each set in place of the -1 the user gave. *)
Theorem explicit_minus_one_is_unset (U : util) (W : world) (prog : string) :
  let argv := [prog; "-t"; "-1"; "-r"; "-1"] in
  getopt W 5 argv = Build_getopt_run [("t"%char, "-1"); ("r"%char, "-1")] 5 →
  getopt W 1 [prog] = Build_getopt_run [] 1 →
  0 ≤ fst (parse_int U "t" "-1") → snd (parse_int U "t" "-1") = -1 →
  0 ≤ fst (parse_int U "r" "-1") → snd (parse_int U "r" "-1") = -1 →
  parse_args U W 5 argv trans_zero
  = (Build_run (Returned 0) [], Build_dma_transfer (-1) 0 0 (-1) (-1))
  ∧ parse_args U W 5 argv trans_zero = parse_args U W 1 [prog] trans_zero
  ∧ main U W 5 argv = main U W 1 [prog]
  ∧ (∀ t0 r0 tx rx,
       resolve_channels (snd (parse_args U W 5 argv trans_zero)) (t0 :: tx) (r0 :: rx)
       = Some (Build_dma_transfer t0 0 0 r0 (-1))).
Proof.
  intros argv Hg5 Hg1 Ht Htv Hr Hrv.
  assert (H5 : parse_args U W 5 argv trans_zero
               = (Build_run (Returned 0) [], Build_dma_transfer (-1) 0 0 (-1) (-1))).
  { rewrite parse_args_checks; rewrite Hg5; cbn [g_options g_optind].
    - unfold parsed_trans, last_int, last_size, supplied.
      cbn [fold_left existsb fst snd Ascii.eqb Bool.eqb orb andb
           input_channel output_channel].
      rewrite Htv, Hrv. reflexivity.
    - apply Forall_cons_2; [exact Ht|]. apply Forall_cons_2; [exact Hr|]. apply Forall_nil_2. }
  assert (H1 : parse_args U W 1 [prog] trans_zero
               = (Build_run (Returned 0) [], Build_dma_transfer (-1) 0 0 (-1) (-1))).
  { rewrite parse_args_checks; rewrite Hg1; cbn [g_options g_optind].
    - reflexivity.
    - apply Forall_nil_2. }
  split; [exact H5|]. split; [rewrite H5, H1; reflexivity|]. split.
  - unfold main, setup. rewrite H5, H1. reflexivity.
  - intros t0 r0 tx rx. rewrite H5. reflexivity.
Qed.

Lemma explicit_minus_one_witness :
  main Sample.helpers Sample.device 5 ["demo"; "-t"; "-1"; "-r"; "-1"]
  = main Sample.helpers Sample.device 1 ["demo"]
  ∧ send_channels (events (main Sample.helpers Sample.device 5
                             ["demo"; "-t"; "-1"; "-r"; "-1"]))
    = [(2, 1); (2, 1); (2, 1)].
Proof.
  assert (Hpos : 0 ≤ 0) by lia.
  pose proof (explicit_minus_one_is_unset Sample.helpers Sample.device "demo"
                eq_refl eq_refl Hpos eq_refl Hpos eq_refl) as (_ & _ & H & _).
  split; [exact H|]. vm_compute. reflexivity.
Defined.


(** * More about the same functions *)

(** ** The option loop, option by option *)

(** Options that parse in front of others are run through, and the loop
    goes on behind them in the state they leave. *)
Lemma getopt_loop_prefix (U : util) (pre rest : list (ascii * string))
    (trans : dma_transfer) (o s : bool) :
  Forall (parses U) pre →
  ∃ trans' o' s',
    ∀ more, getopt_loop U (pre ++ more) trans o s = getopt_loop U more trans' o' s'.
Proof.
  revert trans o s.
  induction pre as [|[c a] pre IH]; intros trans o s Hall.
  - by exists trans, o, s.
  - apply Forall_cons in Hall as [Hp Hall]. simpl in Hp.
    destruct (Ascii.eqb_spec c "t") as [->|Ht].
    { simpl in Hp. destruct (parse_int U "t" a) as [rc v] eqn:E. simpl in Hp.
      destruct (IH (set_input_channel v trans) o s Hall) as (t' & o' & s' & H).
      exists t', o', s'. intros more. cbn [app getopt_loop Ascii.eqb Bool.eqb].
      rewrite E. destruct (Z.ltb_spec rc 0); [lia|]. apply H. }
    destruct (Ascii.eqb_spec c "r") as [->|Hr].
    { simpl in Hp. destruct (parse_int U "r" a) as [rc v] eqn:E. simpl in Hp.
      destruct (IH (set_output_channel v trans) o s Hall) as (t' & o' & s' & H).
      exists t', o', s'. intros more. cbn [app getopt_loop Ascii.eqb Bool.eqb].
      rewrite E. destruct (Z.ltb_spec rc 0); [lia|]. apply H. }
    destruct (Ascii.eqb_spec c "s") as [->|Hs].
    { simpl in Hp. destruct (parse_int U "s" a) as [rc v] eqn:E. simpl in Hp.
      destruct (IH (set_output_size v trans) o true Hall) as (t' & o' & s' & H).
      exists t', o', s'. intros more. cbn [app getopt_loop Ascii.eqb Bool.eqb].
      rewrite E. destruct (Z.ltb_spec rc 0); [lia|]. apply H. }
    destruct (Ascii.eqb_spec c "o") as [->|Ho].
    { simpl in Hp. destruct (parse_double U "o" a) as [rc v] eqn:E. simpl in Hp.
      destruct (IH (set_output_size (MIB_TO_BYTE U v) trans) true s Hall)
        as (t' & o' & s' & H).
      exists t', o', s'. intros more. cbn [app getopt_loop Ascii.eqb Bool.eqb].
      rewrite E. destruct (Z.ltb_spec rc 0); [lia|]. apply H. }
    done.
Qed.

(** [parse_args] when the loop leaves the function at the option behind
    [pre]. *)
Lemma parse_args_leaves (U : util) (W : world) (argc : Z) (argv : list string)
    (pre post : list (ascii * string)) (bad : ascii * string)
    (o : outcome) (evs : list event) :
  g_options (getopt W argc argv) = pre ++ bad :: post →
  Forall (parses U) pre →
  (∀ trans o' s', p_exit (getopt_loop U (bad :: post) trans o' s') = Some o
                  ∧ p_events (getopt_loop U (bad :: post) trans o' s') = evs) →
  fst (parse_args U W argc argv trans_zero) = Build_run o evs.
Proof.
  intros Hg Hpre Hbad. unfold parse_args. rewrite Hg.
  set (t := set_output_size _ _).
  destruct (getopt_loop_prefix U pre (bad :: post) t false false Hpre)
    as (t' & o' & s' & H).
  rewrite H. destruct (Hbad t' o' s') as [-> ->]. reflexivity.
Qed.

(** X1: -h wins.  When the options in front of the first -h parse,
    [parse_args] prints the full help on standard output and leaves through
    [exit(0)], whatever follows the -h and whatever the checks after the
    loop would have said; [main] has then only configured the device
    registers: no handle is acquired and nothing is written to standard
    error. *)
Theorem help_short_circuits (U : util) (W : world) (argc : Z) (argv : list string)
    (pre post : list (ascii * string)) (optarg : string) :
  g_options (getopt W argc argv) = pre ++ ("h"%char, optarg) :: post →
  Forall (parses U) pre →
  fst (parse_args U W argc argv trans_zero) = Build_run (Exited 0) (print_usage true)
  ∧ main U W argc argv
    = Build_run (Exited 0)
        (Call_axidma_config :: Call_XDma_Out32 4 1
         :: map (Fprintf stdout) (usage_line :: help_lines)).
Proof.
  intros Hg Hpre.
  assert (Hp : fst (parse_args U W argc argv trans_zero)
               = Build_run (Exited 0) (print_usage true)).
  { apply (parse_args_leaves U W argc argv pre post ("h"%char, optarg)); [done..|].
    intros trans o' s'. split; reflexivity. }
  split; [exact Hp|]. exact (main_exits U W argc argv 0 _ Hp).
Qed.

Lemma help_short_circuits_witness :
  main Sample.helpers Sample.device 5 ["demo"; "-t"; "3"; "-h"; "-x"]
  = Build_run (Exited 0)
      (Call_axidma_config :: Call_XDma_Out32 4 1
       :: map (Fprintf stdout) (usage_line :: help_lines)).
Proof.
  refine (proj2 (help_short_circuits Sample.helpers Sample.device 5
                   ["demo"; "-t"; "3"; "-h"; "-x"]
                   [("t"%char, "3")] [("?"%char, EmptyString)] EmptyString _ _)).
  - reflexivity.
  - all_parse.
Defined.

(** X2: a value that does not parse ends the parsing at once.  When the
    options in front of it parse and the helper called for an option
    returns a negative status, [parse_args] prints the short usage on
    standard error and returns that very status (not -EINVAL); [main]
    turns it into the return value 1 and stops before the device is
    initialised. *)
Theorem malformed_value_returns_helper_status (U : util) (W : world) (argc : Z)
    (argv : list string) (pre post : list (ascii * string)) (bad : ascii * string)
    (rc : Z) :
  g_options (getopt W argc argv) = pre ++ bad :: post →
  Forall (parses U) pre →
  helper_code U bad = Some rc → rc < 0 →
  fst (parse_args U W argc argv trans_zero)
  = Build_run (Returned rc) [Fprintf stderr usage_line]
  ∧ main U W argc argv
    = Build_run (Returned 1)
        [Call_axidma_config; Call_XDma_Out32 4 1; Fprintf stderr usage_line].
Proof.
  intros Hg Hpre Hcode Hrc.
  assert (Hp : fst (parse_args U W argc argv trans_zero)
               = Build_run (Returned rc) [Fprintf stderr usage_line]).
  { apply (parse_args_leaves U W argc argv pre post bad); [done..|].
    intros trans o' s'. destruct bad as [c a]. unfold helper_code in Hcode.
    cbn [getopt_loop].
    destruct (Ascii.eqb_spec c "t") as [->|Ht].
    { cbn in Hcode. injection Hcode as Hcode. destruct (parse_int U "t" a) as [rc' v].
      cbn [fst] in Hcode. subst rc'. destruct (Z.ltb_spec rc 0); [done | lia]. }
    destruct (Ascii.eqb_spec c "r") as [->|Hr].
    { cbn in Hcode. injection Hcode as Hcode. destruct (parse_int U "r" a) as [rc' v].
      cbn [fst] in Hcode. subst rc'. destruct (Z.ltb_spec rc 0); [done | lia]. }
    destruct (Ascii.eqb_spec c "s") as [->|Hs].
    { cbn in Hcode. injection Hcode as Hcode. destruct (parse_int U "s" a) as [rc' v].
      cbn [fst] in Hcode. subst rc'. destruct (Z.ltb_spec rc 0); [done | lia]. }
    destruct (Ascii.eqb_spec c "o") as [->|Ho].
    { cbn in Hcode. injection Hcode as Hcode. destruct (parse_double U "o" a) as [rc' v].
      cbn [fst] in Hcode. subst rc'. destruct (Z.ltb_spec rc 0); [done | lia]. }
    done. }
  split; [exact Hp|]. exact (main_rejects U W argc argv rc _ Hp Hrc).
Qed.

Lemma malformed_value_witness :
  fst (parse_args Sample.helpers Sample.device 5 ["demo"; "-t"; "3"; "-r"; "x1"] trans_zero)
  = Build_run (Returned (-22)) [Fprintf stderr usage_line]
  ∧ main Sample.helpers Sample.device 5 ["demo"; "-t"; "3"; "-r"; "x1"]
    = Build_run (Returned 1)
        [Call_axidma_config; Call_XDma_Out32 4 1; Fprintf stderr usage_line].
Proof.
  apply (malformed_value_returns_helper_status Sample.helpers Sample.device 5
           ["demo"; "-t"; "3"; "-r"; "x1"] [("t"%char, "3")] [] ("r"%char, "x1") (-22)).
  - reflexivity.
  - all_parse.
  - reflexivity.
  - lia.
Defined.

(** X3: an option character that is none of t, r, s, o, h (what getopt
    yields for an unknown option or a missing value) ends the parsing with
    -EINVAL and the short usage on standard error, when the options in
    front of it parse; [main] returns 1 and stops before the device is
    initialised. *)
Theorem unknown_option_rejected (U : util) (W : world) (argc : Z)
    (argv : list string) (pre post : list (ascii * string)) (c : ascii)
    (optarg : string) :
  g_options (getopt W argc argv) = pre ++ (c, optarg) :: post →
  Forall (parses U) pre →
  known c = false → Ascii.eqb c "h" = false →
  fst (parse_args U W argc argv trans_zero)
  = Build_run (Returned (- EINVAL)) [Fprintf stderr usage_line]
  ∧ main U W argc argv
    = Build_run (Returned 1)
        [Call_axidma_config; Call_XDma_Out32 4 1; Fprintf stderr usage_line].
Proof.
  intros Hg Hpre Hk Hh.
  assert (Hp : fst (parse_args U W argc argv trans_zero)
               = Build_run (Returned (- EINVAL)) [Fprintf stderr usage_line]).
  { apply (parse_args_leaves U W argc argv pre post (c, optarg)); [done..|].
    intros trans o' s'. cbn [getopt_loop]. unfold known in Hk.
    destruct (Ascii.eqb c "t"); [done|]. destruct (Ascii.eqb c "r"); [done|].
    destruct (Ascii.eqb c "s"); [done|]. destruct (Ascii.eqb c "o"); [done|].
    rewrite Hh. done. }
  split; [exact Hp|].
  apply (main_rejects U W argc argv (- EINVAL) _ Hp). unfold EINVAL. lia.
Qed.

Lemma unknown_option_witness :
  main Sample.helpers Sample.device 4 ["demo"; "-s"; "5"; "-x"]
  = Build_run (Returned 1)
      [Call_axidma_config; Call_XDma_Out32 4 1; Fprintf stderr usage_line].
Proof.
  refine (proj2 (unknown_option_rejected Sample.helpers Sample.device 4
                   ["demo"; "-s"; "5"; "-x"] [("s"%char, "5")] [] "?"%char EmptyString
                   _ _ _ _)).
  - reflexivity.
  - all_parse.
  - reflexivity.
  - reflexivity.
Defined.

(** ** The ways out of main *)

(** A negative code comes with text on standard error only, the usage
    line last. *)
Lemma parse_args_negative (U : util) (W : world) (argc : Z) (argv : list string)
    (trans : dma_transfer) (rc : Z) :
  out (fst (parse_args U W argc argv trans)) = Returned rc → rc < 0 →
  Forall (λ e, on_stderr e = true) (events (fst (parse_args U W argc argv trans)))
  ∧ last (events (fst (parse_args U W argc argv trans))) = Some (Fprintf stderr usage_line).
Proof.
  unfold parse_args.
  set (t := set_output_size _ _). set (g := getopt W argc argv).
  destruct (getopt_loop_exit U (g_options g) t false false)
    as [[E1 E2]|[[E1 E2]|(rc' & E1 & Hneg & E2)]];
    rewrite E1, ?E2; simpl.
  - repeat case_match; simpl; intros [= <-] Hrc; try lia;
      (split; [early_events | reflexivity]).
  - discriminate.
  - intros _ _. split; [early_events | reflexivity].
Qed.

(** What both functions do once [parse_args] returned a code that is not
    negative: on to the device, with a descriptor whose file descriptor
    and input size are still the zeros of [memset]. *)
Lemma setup_accepts (U : util) (W : world) (argc : Z) (argv : list string)
    (next : buffer → dma_transfer → run) (rc : Z) :
  out (fst (parse_args U W argc argv trans_zero)) = Returned rc → 0 ≤ rc →
  setup U W argc argv next
  = after [Call_axidma_config; Call_XDma_Out32 4 1]
          (next (sbuffer_init zero_buffer) (snd (parse_args U W argc argv trans_zero)))
  ∧ output_fd (snd (parse_args U W argc argv trans_zero)) = 0
  ∧ input_size (snd (parse_args U W argc argv trans_zero)) = 0.
Proof.
  intros Ho Hrc.
  pose proof (parse_args_success U W argc argv trans_zero rc Ho Hrc) as Hs.
  destruct (parse_args_keeps U W argc argv trans_zero) as [Hfd Hin].
  split; [|done].
  unfold setup. destruct (parse_args U W argc argv trans_zero) as [args trans].
  cbn [fst snd] in *. subst args. cbn [out events]. reflexivity.
Qed.

(** The three ways the device stage stops, whatever would have followed. *)
Lemma device_stage_init_fails (W : world) (trans : dma_transfer)
    (next : axidma_dev_t → dma_transfer → run) :
  axidma_init W = NULL →
  device_stage W trans next
  = Build_run (if close W (output_fd trans) =? 0 then Returned 1 else Aborted)
      [ Call_axidma_init NULL;
        Fprintf stderr ("Error: Failed to initialize the AXI DMA device." +:+ nl);
        Call_close (output_fd trans) (close W (output_fd trans)) ].
Proof. intros H. unfold device_stage. rewrite H. reflexivity. Qed.

Lemma device_stage_no_tx (W : world) (trans : dma_transfer)
    (next : axidma_dev_t → dma_transfer → run) :
  axidma_init W ≠ NULL →
  axidma_get_dma_tx W (axidma_init W) = [] →
  device_stage W trans next
  = Build_run (if close W (output_fd trans) =? 0 then Returned (- ENODEV) else Aborted)
      [ Call_axidma_init (axidma_init W);
        Fprintf stdout ("Succeed to initialize the AXI DMA device." +:+ nl);
        Call_axidma_get_dma_tx (axidma_init W);
        Fprintf stderr ("Error: No transmit channels were found." +:+ nl);
        Call_axidma_destroy (axidma_init W);
        Call_close (output_fd trans) (close W (output_fd trans)) ].
Proof.
  intros Hdev Htx. unfold device_stage. rewrite Htx.
  destruct (Z.eqb_spec (axidma_init W) NULL); [done|]. reflexivity.
Qed.

Lemma device_stage_no_rx (W : world) (trans : dma_transfer)
    (next : axidma_dev_t → dma_transfer → run) :
  axidma_init W ≠ NULL →
  axidma_get_dma_tx W (axidma_init W) ≠ [] →
  axidma_get_dma_rx W (axidma_init W) = [] →
  device_stage W trans next
  = Build_run (if close W (output_fd trans) =? 0 then Returned (- ENODEV) else Aborted)
      [ Call_axidma_init (axidma_init W);
        Fprintf stdout ("Succeed to initialize the AXI DMA device." +:+ nl);
        Call_axidma_get_dma_tx (axidma_init W);
        Call_axidma_get_dma_rx (axidma_init W);
        Fprintf stderr ("Error: No receive channels were found." +:+ nl);
        Call_axidma_destroy (axidma_init W);
        Call_close (output_fd trans) (close W (output_fd trans)) ].
Proof.
  intros Hdev Htx Hrx. unfold device_stage. rewrite Hrx.
  destruct (Z.eqb_spec (axidma_init W) NULL); [done|].
  destruct (axidma_get_dma_tx W (axidma_init W)) as [|t0 tx]; [done|].
  rewrite len_cons. reflexivity.
Qed.

(** X4: whatever made [parse_args] return a negative code, [main] returns
    1 (the code itself is dropped); it has configured the device registers
    before looking at the arguments, and after that it only printed, on
    standard error, with the usage line last. *)
Theorem rejected_arguments_return_1 (U : util) (W : world) (argc : Z)
    (argv : list string) (rc : Z) :
  let args := fst (parse_args U W argc argv trans_zero) in
  out args = Returned rc → rc < 0 →
  main U W argc argv
  = Build_run (Returned 1) (Call_axidma_config :: Call_XDma_Out32 4 1 :: events args)
  ∧ Forall (λ e, on_stderr e = true) (events args)
  ∧ last (events args) = Some (Fprintf stderr usage_line).
Proof.
  intros args Ho Hrc.
  destruct (parse_args_negative U W argc argv trans_zero rc Ho Hrc) as [H1 H2].
  split; [|done].
  apply (main_rejects U W argc argv rc); [|done].
  subst args. destruct (fst (parse_args U W argc argv trans_zero)) as [o evs].
  cbn [out] in Ho. by subst o.
Qed.

Lemma rejected_arguments_witness :
  main Sample.helpers Sample.device 4 ["demo"; "a"; "b"; "c"]
  = Build_run (Returned 1)
      [ Call_axidma_config; Call_XDma_Out32 4 1;
        Fprintf stderr too_many_error; Fprintf stderr usage_line ].
Proof.
  refine (proj1 (rejected_arguments_return_1 Sample.helpers Sample.device 4
                   ["demo"; "a"; "b"; "c"] (-22) _ _)).
  - reflexivity.
  - lia.
Defined.

(** X5: when the arguments are accepted and [axidma_init] returns [NULL],
    [main] prints the failure on standard error, asks for no channel,
    destroys nothing, closes descriptor 0 (the [output_fd] nobody set) and
    returns 1, or stops at the assertion when that [close] fails. *)
Theorem init_failure_path (U : util) (W : world) (argc : Z) (argv : list string)
    (rc : Z) :
  out (fst (parse_args U W argc argv trans_zero)) = Returned rc → 0 ≤ rc →
  axidma_init W = NULL →
  main U W argc argv
  = Build_run (if close W 0 =? 0 then Returned 1 else Aborted)
      [ Call_axidma_config; Call_XDma_Out32 4 1; Call_axidma_init NULL;
        Fprintf stderr ("Error: Failed to initialize the AXI DMA device." +:+ nl);
        Call_close 0 (close W 0) ].
Proof.
  intros Ho Hrc Hnull. unfold main.
  destruct (setup_accepts U W argc argv
              (λ sbuffer trans, device_stage W trans (transfer_stage U W sbuffer))
              rc Ho Hrc) as (-> & Hfd & _).
  rewrite device_stage_init_fails by done. rewrite Hfd. reflexivity.
Qed.

Lemma init_failure_witness :
  main Sample.helpers
       (Build_world Posix.getopt NULL (λ _, [2]) (λ _, [1]) (λ _, 0) (λ _, (0, [])) 0 (λ _, 0))
       1 ["demo"]
  = Build_run (Returned 1)
      [ Call_axidma_config; Call_XDma_Out32 4 1; Call_axidma_init NULL;
        Fprintf stderr ("Error: Failed to initialize the AXI DMA device." +:+ nl);
        Call_close 0 0 ].
Proof.
  refine (init_failure_path Sample.helpers _ 1 ["demo"] 0 _ _ _).
  - reflexivity.
  - lia.
  - reflexivity.
Defined.

(** X6: when the device reports no channel in one direction, [main] prints
    which on standard error, destroys the handle, closes descriptor 0 and
    returns -ENODEV, a negative value; without a transmit channel the
    receive channels are not even asked for. *)
Theorem channel_discovery_failure_path (U : util) (W : world) (argc : Z)
    (argv : list string) (rc : Z) :
  let dev := axidma_init W in
  let tail := λ text, [ Fprintf stderr (text +:+ nl); Call_axidma_destroy dev;
                        Call_close 0 (close W 0) ] in
  out (fst (parse_args U W argc argv trans_zero)) = Returned rc → 0 ≤ rc →
  dev ≠ NULL →
  (axidma_get_dma_tx W dev = [] →
   main U W argc argv
   = Build_run (if close W 0 =? 0 then Returned (- ENODEV) else Aborted)
       ([ Call_axidma_config; Call_XDma_Out32 4 1; Call_axidma_init dev;
          Fprintf stdout ("Succeed to initialize the AXI DMA device." +:+ nl);
          Call_axidma_get_dma_tx dev ]
        ++ tail "Error: No transmit channels were found."))
  ∧ (axidma_get_dma_tx W dev ≠ [] → axidma_get_dma_rx W dev = [] →
     main U W argc argv
     = Build_run (if close W 0 =? 0 then Returned (- ENODEV) else Aborted)
         ([ Call_axidma_config; Call_XDma_Out32 4 1; Call_axidma_init dev;
            Fprintf stdout ("Succeed to initialize the AXI DMA device." +:+ nl);
            Call_axidma_get_dma_tx dev; Call_axidma_get_dma_rx dev ]
          ++ tail "Error: No receive channels were found.")).
Proof.
  intros dev tail Ho Hrc Hdev. unfold main.
  destruct (setup_accepts U W argc argv
              (λ sbuffer trans, device_stage W trans (transfer_stage U W sbuffer))
              rc Ho Hrc) as (-> & Hfd & _).
  split.
  - intros Htx. rewrite device_stage_no_tx by done. rewrite Hfd. reflexivity.
  - intros Htx Hrx. rewrite device_stage_no_rx by done. rewrite Hfd. reflexivity.
Qed.

Lemma channel_discovery_failure_witness :
  main Sample.helpers
       (Build_world Posix.getopt 7 (λ _, [2]) (λ _, []) (λ _, 0) (λ _, (0, [])) 0 (λ _, 0))
       1 ["demo"]
  = Build_run (Returned (-19))
      [ Call_axidma_config; Call_XDma_Out32 4 1; Call_axidma_init 7;
        Fprintf stdout ("Succeed to initialize the AXI DMA device." +:+ nl);
        Call_axidma_get_dma_tx 7; Call_axidma_get_dma_rx 7;
        Fprintf stderr ("Error: No receive channels were found." +:+ nl);
        Call_axidma_destroy 7; Call_close 0 0 ].
Proof.
  refine (proj2 (channel_discovery_failure_path Sample.helpers _ 1 ["demo"] 0 _ _ _) _ _).
  - reflexivity.
  - lia.
  - discriminate.
  - discriminate.
  - reflexivity.
Defined.

Lemma prints_no_close (evs : list event) :
  Forall (λ e, is_print e = true) evs → closes evs = [].
Proof.
  induction 1 as [|e evs He _ IH]; [done|].
  destruct e; try discriminate He. exact IH.
Qed.

(** Every run of either function takes one of three shapes: it stops at
    the arguments, it stops in the device stage, or it gets to what
    follows the channel resolution. *)
Lemma task_paths (U : util) (W : world) (argc : Z) (argv : list string)
    (next : buffer → axidma_dev_t → dma_transfer → run) :
  let r := setup U W argc argv (λ sbuffer trans, device_stage W trans (next sbuffer)) in
  (∃ o evs, r = Build_run o (Call_axidma_config :: Call_XDma_Out32 4 1 :: evs)
            ∧ Forall (λ e, is_print e = true) evs
            ∧ (o = Exited 0 ∨ o = Returned 1))
  ∨ (∃ o evs, r = Build_run o (Call_axidma_config :: Call_XDma_Out32 4 1 :: evs)
              ∧ closes evs = [0]
              ∧ (o = Aborted ∨ o = Returned 1 ∨ o = Returned (- ENODEV)))
  ∨ (reaches_transfer U W argc argv
     ∧ ∃ trans,
         resolve_channels (snd (parse_args U W argc argv trans_zero))
           (axidma_get_dma_tx W (axidma_init W)) (axidma_get_dma_rx W (axidma_init W))
         = Some trans
         ∧ output_fd trans = 0 ∧ input_size trans = 0
         ∧ output_size trans = output_size (snd (parse_args U W argc argv trans_zero))
         ∧ r = after (early_events W)
                     (next (sbuffer_init zero_buffer) (axidma_init W) trans)).
Proof.
  intros r.
  destruct (parse_args_ends U W argc argv trans_zero) as [[rc Ho]|Ho].
  - destruct (Z.ltb_spec rc 0) as [Hneg|Hpos].
    + left. exists (Returned 1), (events (fst (parse_args U W argc argv trans_zero))).
      split; [|split; [apply parse_args_prints | by right]].
      subst r. unfold setup.
      destruct (parse_args U W argc argv trans_zero) as [args trans].
      cbn [fst out] in *. rewrite Ho.
      destruct (Z.ltb_spec rc 0); [|lia]. unfold after. cbn [out events].
      by rewrite app_nil_r.
    + destruct (setup_accepts U W argc argv
                  (λ sbuffer trans, device_stage W trans (next sbuffer)) rc Ho Hpos)
        as (Hr & Hfd & Hin).
      fold r in Hr.
      destruct (Z.eq_dec (axidma_init W) NULL) as [Hnull|Hdev].
      { right; left. rewrite device_stage_init_fails, Hfd in Hr by done.
        eexists _, _. split; [exact Hr|]. split; [reflexivity|].
        destruct (close W 0 =? 0); eauto. }
      destruct (axidma_get_dma_tx W (axidma_init W)) as [|t0 tx] eqn:Etx.
      { right; left. rewrite device_stage_no_tx, Hfd in Hr by done.
        eexists _, _. split; [exact Hr|]. split; [reflexivity|].
        destruct (close W 0 =? 0); eauto. }
      destruct (axidma_get_dma_rx W (axidma_init W)) as [|r0 rx] eqn:Erx.
      { right; left. rewrite device_stage_no_rx, Hfd in Hr by (done || by rewrite Etx).
        eexists _, _. split; [exact Hr|]. split; [reflexivity|].
        destruct (close W 0 =? 0); eauto. }
      right; right.
      destruct (task_cases U W argc argv next) as [(Hreach & trans & Hres & Hrun)|[Hn _]].
      * split; [done|]. exists trans. rewrite Etx, Erx in Hres. split; [done|].
        pose proof Hres as Hk. apply resolve_channels_keeps in Hk as (K1 & K2 & K3).
        rewrite K1, K2, K3, Hfd, Hin. done.
      * exfalso. apply Hn. split; [eauto|]. rewrite Etx, Erx. done.
  - left. exists (Exited 0), (events (fst (parse_args U W argc argv trans_zero))).
    split; [|split; [apply parse_args_prints | by left]].
    subst r. unfold setup.
    destruct (parse_args U W argc argv trans_zero) as [args trans].
    cbn [fst out] in *. rewrite Ho. unfold after. cbn [out events].
    by rewrite app_nil_r.
Qed.

Lemma transfer_stage_closes (U : util) (W : world) (sbuffer : buffer)
    (dev : axidma_dev_t) (trans : dma_transfer) :
  closes (events (transfer_stage U W sbuffer dev trans))
  = (if pthread_create W =? 0 then [output_fd trans] else []).
Proof.
  rewrite transfer_stage_events. unfold transfer_info, closes.
  destruct (pthread_create W =? 0); cbn [omap list_omap app]; done.
Qed.

(** X7: when [pthread_create] fails after the three sends, [main] says so
    on standard output and returns -1 at once: the handle it acquired is
    not destroyed and no descriptor is closed. *)
Theorem thread_creation_failure_skips_cleanup (U : util) (W : world) (argc : Z)
    (argv : list string) :
  let evs := events (main U W argc argv) in
  reaches_transfer U W argc argv →
  pthread_create W ≠ 0 →
  out (main U W argc argv) = Returned (-1)
  ∧ acquired evs = [axidma_init W]
  ∧ released evs = []
  ∧ closes evs = []
  ∧ last evs = Some (Fprintf stdout ("pthreadrx_create fail" +:+ nl)).
Proof.
  intros evs Hr Hc. subst evs.
  destruct (main_reaches U W argc argv Hr) as (trans & _ & Hm).
  destruct Hr as (_ & Hdev & _).
  rewrite Hm, events_after, out_after, transfer_stage_out.
  assert (Hlast : last (early_events W
                        ++ events (transfer_stage U W (sbuffer_init zero_buffer)
                                     (axidma_init W) trans))
                  = Some (Fprintf stdout ("pthreadrx_create fail" +:+ nl))).
  { rewrite transfer_stage_events.
    destruct (Z.eqb_spec (pthread_create W) 0) as [|_]; [done|].
    rewrite !app_assoc. apply last_snoc. }
  destruct (transfer_stage_shows U W (sbuffer_init zero_buffer) (axidma_init W) trans)
    as (_ & _ & _ & _ & T5 & T6).
  pose proof (transfer_stage_closes U W (sbuffer_init zero_buffer) (axidma_init W) trans)
    as T7.
  split; [by destruct (Z.eqb_spec (pthread_create W) 0)|].
  split; [|split; [|split; [|exact Hlast]]];
    unfold acquired, released, closes in *; rewrite !omap_app, ?T5, ?T6, ?T7;
    destruct (Z.eqb_spec (pthread_create W) 0) as [|_]; try done;
    unfold early_events; cbn [omap list_omap app];
    destruct (Z.eqb_spec (axidma_init W) NULL); done.
Qed.

Lemma thread_creation_failure_witness :
  let W := Build_world Posix.getopt 7 (λ _, [2]) (λ _, [1]) (λ _, 0) (λ _, (0, [])) 11
                       (λ _, 0) in
  out (main Sample.helpers W 1 ["demo"]) = Returned (-1)
  ∧ acquired (events (main Sample.helpers W 1 ["demo"])) = [7]
  ∧ released (events (main Sample.helpers W 1 ["demo"])) = []
  ∧ closes (events (main Sample.helpers W 1 ["demo"])) = []
  ∧ last (events (main Sample.helpers W 1 ["demo"]))
    = Some (Fprintf stdout ("pthreadrx_create fail" +:+ nl)).
Proof.
  intros W.
  apply (thread_creation_failure_skips_cleanup Sample.helpers W 1 ["demo"]).
  - split; [exists 0; split; [reflexivity | lia] | repeat split; discriminate].
  - discriminate.
Defined.

Lemma receive_loop_no_close (W : world) (dev : axidma_dev_t) (trans : dma_transfer)
    (n k : nat) (rbuffer : buffer) :
  closes (events (receive_loop W dev trans n k rbuffer)) = [].
Proof.
  revert k rbuffer. induction n as [|n IH]; intros k rbuffer; cbn [receive_loop]; [done|].
  destruct (axidma0read W k) as [rec_len data].
  destruct (hex_dump rec_len (store data rbuffer)) as [dump|] eqn:Ed; [|done].
  rewrite events_after. unfold closes in *. rewrite !omap_app, IH.
  pose proof (prints_no_close dump (hex_dump_prints _ _ _ Ed)) as Hd.
  unfold closes in Hd. rewrite Hd. done.
Qed.

(** X8: the only descriptor either function ever closes is 0: nothing
    sets [output_fd] after the [memset], so each [close] on a cleanup path
    is a [close(0)]. *)
Theorem closes_only_descriptor_zero (U : util) (W : world) (argc : Z)
    (argv : list string) (n : nat) :
  Forall (λ fd, fd = 0) (closes (events (main U W argc argv)))
  ∧ Forall (λ fd, fd = 0) (closes (events (rapidio_taks_rec U W argc argv n))).
Proof.
  assert (Hearly : closes (early_events W) = []) by reflexivity.
  split.
  - unfold main.
    destruct (task_paths U W argc argv (transfer_stage U W))
      as [(o & evs & -> & Hp & _)|[(o & evs & -> & Hc & _)|(_ & t & _ & Hfd & _ & _ & ->)]].
    + cbn [events]. change (Forall (λ fd, fd = 0) (closes evs)).
      rewrite (prints_no_close evs Hp). constructor.
    + cbn [events]. change (Forall (λ fd, fd = 0) (closes evs)).
      rewrite Hc. by repeat constructor.
    + rewrite events_after. unfold closes in *. rewrite omap_app, Hearly.
      fold (closes (events (transfer_stage U W (sbuffer_init zero_buffer) (axidma_init W) t))).
      rewrite transfer_stage_closes, Hfd.
      destruct (pthread_create W =? 0); by repeat constructor.
  - unfold rapidio_taks_rec.
    destruct (task_paths U W argc argv
                (λ _ dev trans, receive_loop W dev trans n 0 zero_buffer))
      as [(o & evs & -> & Hp & _)|[(o & evs & -> & Hc & _)|(_ & t & _ & Hfd & _ & _ & ->)]].
    + cbn [events]. change (Forall (λ fd, fd = 0) (closes evs)).
      rewrite (prints_no_close evs Hp). constructor.
    + cbn [events]. change (Forall (λ fd, fd = 0) (closes evs)).
      rewrite Hc. by repeat constructor.
    + rewrite events_after.
      pose proof (receive_loop_no_close W (axidma_init W) t n 0 zero_buffer) as Hloop.
      unfold closes in *. rewrite omap_app, Hearly, Hloop. constructor.
Qed.

(** X9: the values [main] can end with, the status of the last send being
    an [int].  It leaves through [exit(0)] for -h, stops at the assertion
    on [close], or returns 1 (arguments rejected, initialisation failed),
    -ENODEV (no channel), -1 (no thread), 0, or the [int] negation of the
    last status when that status is negative: a positive value, its
    negation, for a status above INT_MIN, and INT_MIN for the status
    INT_MIN.  So -19, -1 and INT_MIN are the only negative values it
    returns, the last one for that one status only. *)
Theorem main_return_values (U : util) (W : world) (argc : Z) (argv : list string) :
  int_min ≤ axidma0send W 2 ≤ int_max →
  out (main U W argc argv) = Exited 0
  ∨ out (main U W argc argv) = Aborted
  ∨ ∃ rc, out (main U W argc argv) = Returned rc
          ∧ (rc = 1 ∨ rc = - ENODEV ∨ rc = -1 ∨ rc = 0
             ∨ (int_min < axidma0send W 2 < 0 ∧ rc = - axidma0send W 2 ∧ 0 < rc)
             ∨ (axidma0send W 2 = int_min ∧ rc = int_min)).
Proof.
  intros Hint. unfold main.
  destruct (task_paths U W argc argv (transfer_stage U W))
    as [(o & evs & -> & _ & [->| ->])|[(o & evs & -> & _ & [->|[->| ->]])
       |(_ & t & _ & Hfd & _ & _ & ->)]]; cbn [out]; eauto 10.
  rewrite out_after, transfer_stage_out.
  destruct (pthread_create W =? 0); [|eauto 10].
  destruct (close W (output_fd t) =? 0); [|eauto].
  destruct (Z.ltb_spec (axidma0send W 2) 0) as [Hneg|Hpos]; [|eauto 10].
  right. right. eexists. split; [reflexivity|].
  destruct (Z.eq_dec (axidma0send W 2) int_min) as [Hmin|Hmin].
  - do 5 right. split; [exact Hmin|]. rewrite Hmin. reflexivity.
  - do 4 right. left.
    assert (Hin : int_min < axidma0send W 2 < 0) by lia.
    destruct (proj1 (neg_int_spec (axidma0send W 2)) Hin) as (Heq & Hgt).
    rewrite <- Heq. done.
Qed.

Lemma main_return_values_witness :
  out (main Sample.helpers Sample.device 1 ["demo"]) = Exited 0
  ∨ out (main Sample.helpers Sample.device 1 ["demo"]) = Aborted
  ∨ ∃ rc, out (main Sample.helpers Sample.device 1 ["demo"]) = Returned rc
          ∧ (rc = 1 ∨ rc = - ENODEV ∨ rc = -1 ∨ rc = 0
             ∨ (int_min < axidma0send Sample.device 2 < 0
                ∧ rc = - axidma0send Sample.device 2 ∧ 0 < rc)
             ∨ (axidma0send Sample.device 2 = int_min ∧ rc = int_min)).
Proof.
  apply (main_return_values Sample.helpers Sample.device 1 ["demo"]).
  split; discriminate.
Defined.

(** ** What the sends are given *)

Lemma send_event_transfer (evs : list event) (dev : axidma_dev_t)
    (trans : dma_transfer) (buf : buffer) (ret : Z) :
  In (Call_axidma0send dev trans buf ret) evs → In trans (send_transfers evs).
Proof.
  intros Hin. apply list_elem_of_In. unfold send_transfers.
  apply list_elem_of_omap. exists (Call_axidma0send dev trans buf ret).
  split; [by apply list_elem_of_In | done].
Qed.

Lemma transfer_stage_send_transfers (U : util) (W : world) (sbuffer : buffer)
    (dev : axidma_dev_t) (trans : dma_transfer) :
  send_transfers (events (transfer_stage U W sbuffer dev trans))
  = [ set_output_size 2048 (set_input_size 1000 trans);
      set_input_size 2000 (set_output_size 2048 (set_input_size 1000 trans));
      set_input_size 1800
        (set_input_size 2000 (set_output_size 2048 (set_input_size 1000 trans))) ].
Proof.
  rewrite transfer_stage_events. unfold transfer_info, send_transfers.
  destruct (pthread_create W =? 0); cbn [omap list_omap app]; done.
Qed.

(** X10: the size options do not reach the transfer.  Every send of
    [main] is issued with an output size of 2048, whatever -s or -o said,
    and with 1000, 2000 or 1800 bytes to send; every byte it is asked to
    send lies in the part of the buffer that holds the pattern. *)
Theorem sends_ignore_size_options (U : util) (W : world) (argc : Z)
    (argv : list string) (dev : axidma_dev_t) (trans : dma_transfer)
    (buf : buffer) (ret : Z) :
  In (Call_axidma0send dev trans buf ret) (events (main U W argc argv)) →
  output_size trans = 2048
  ∧ (input_size trans = 1000 ∨ input_size trans = 2000 ∨ input_size trans = 1800)
  ∧ (∀ index, 0 ≤ index < input_size trans →
       buf !! Z.to_nat index = Some (index mod 256)).
Proof.
  intros Hin.
  destruct (main_send_inv U W argc argv dev trans buf ret Hin) as (Hr & _ & ->).
  destruct (main_reaches U W argc argv Hr) as (t & _ & Hm).
  apply send_event_transfer in Hin.
  rewrite Hm, events_after in Hin. unfold send_transfers in Hin.
  rewrite omap_app in Hin.
  fold (send_transfers (events (transfer_stage U W (sbuffer_init zero_buffer)
                                  (axidma_init W) t))) in Hin.
  rewrite transfer_stage_send_transfers in Hin.
  change (omap _ (early_events W)) with (@nil dma_transfer) in Hin.
  cbn [app In] in Hin.
  assert (Hsize : output_size trans = 2048
                  ∧ (input_size trans = 1000 ∨ input_size trans = 2000
                     ∨ input_size trans = 1800)).
  { destruct Hin as [<-|[<-|[<-|[]]]]; cbn; tauto. }
  destruct Hsize as [H1 H2]. split; [done|]. split; [done|].
  intros index Hindex. apply sbuffer_init_spec; [rewrite zero_buffer_length; lia | lia].
Qed.

Lemma sends_ignore_size_options_witness :
  output_size (Build_dma_transfer 2 1000 0 1 2048) = 2048
  ∧ (1000 = 1000 ∨ 1000 = 2000 ∨ 1000 = 1800)
  ∧ (∀ index, 0 ≤ index < 1000 →
       sbuffer_init zero_buffer !! Z.to_nat index = Some (index mod 256)).
Proof.
  refine (sends_ignore_size_options Sample.helpers Sample.device 3 ["demo"; "-s"; "77"]
            7 (Build_dma_transfer 2 1000 0 1 2048) (sbuffer_init zero_buffer) 0 _).
  vm_compute. do 11 right. left. reflexivity.
Defined.

(** The channel check passed when [parse_args] returned 0: both channels
    are -1 or neither is. *)
Lemma parse_args_paired (U : util) (W : world) (argc : Z) (argv : list string)
    (trans : dma_transfer) (rc : Z) :
  out (fst (parse_args U W argc argv trans)) = Returned rc → 0 ≤ rc →
  (input_channel (snd (parse_args U W argc argv trans)) = -1
   ↔ output_channel (snd (parse_args U W argc argv trans)) = -1).
Proof.
  unfold parse_args.
  set (t := set_output_size _ _). set (g := getopt W argc argv).
  destruct (getopt_loop_exit U (g_options g) t false false)
    as [[E1 E2]|[[E1 E2]|(rc' & E1 & Hneg & E2)]];
    rewrite E1; simpl.
  - destruct (Z.eqb_spec (input_channel (p_trans (getopt_loop U (g_options g) t false false)))
                         (-1)),
             (Z.eqb_spec (output_channel (p_trans (getopt_loop U (g_options g) t false false)))
                         (-1));
      cbn [xorb]; repeat case_match; simpl; intros [= <-]; unfold EINVAL; try lia; tauto.
  - discriminate.
  - intros [= <-]. lia.
Qed.

(** X11: channels given on the command line are used as they are.  When
    the arguments were accepted with a channel other than -1, both
    channels are other than -1 and all three sends are issued on exactly
    these two, whether or not the device lists them. *)
Theorem explicit_channels_used_unchecked (U : util) (W : world) (argc : Z)
    (argv : list string) :
  let parsed := snd (parse_args U W argc argv trans_zero) in
  reaches_transfer U W argc argv →
  input_channel parsed ≠ -1 ∨ output_channel parsed ≠ -1 →
  input_channel parsed ≠ -1 ∧ output_channel parsed ≠ -1
  ∧ send_channels (events (main U W argc argv))
    = replicate 3 (input_channel parsed, output_channel parsed).
Proof.
  intros parsed Hr Hgiven.
  destruct (main_reaches U W argc argv Hr) as (t & Hres & Hm).
  fold parsed in Hres. rewrite resolve_channels_override in Hres by done.
  injection Hres as <-.
  destruct Hr as ((rc & Ho & Hrc) & _).
  pose proof (parse_args_paired U W argc argv trans_zero rc Ho Hrc) as Hpair.
  fold parsed in Hpair.
  split; [tauto|]. split; [tauto|].
  rewrite Hm, events_after. unfold send_channels. rewrite omap_app.
  fold (send_channels (events (transfer_stage U W (sbuffer_init zero_buffer)
                                 (axidma_init W) parsed))).
  destruct (transfer_stage_shows U W (sbuffer_init zero_buffer) (axidma_init W) parsed)
    as (_ & _ & -> & _).
  reflexivity.
Qed.

Lemma explicit_channels_witness :
  send_channels (events (main Sample.helpers Sample.device 5 ["demo"; "-t"; "9"; "-r"; "8"]))
  = [(9, 8); (9, 8); (9, 8)].
Proof.
  refine (proj2 (proj2 (explicit_channels_used_unchecked Sample.helpers Sample.device 5
                          ["demo"; "-t"; "9"; "-r"; "8"] _ _))).
  - split; [exists 0; split; [reflexivity | lia] | repeat split; discriminate].
  - left. discriminate.
Defined.

(** ** Repeated options *)

Lemma last_int_decides (U : util) (c : ascii) (pre post : list (ascii * string))
    (optarg : string) (d : Z) :
  supplied c post = false →
  last_int U c (pre ++ (c, optarg) :: post) d = snd (parse_int U c optarg).
Proof.
  intros Hpost. unfold last_int. rewrite fold_left_app. cbn [fold_left fst snd].
  rewrite Ascii.eqb_refl.
  apply (last_int_absent U c post _ Hpost).
Qed.

Lemma parse_args_descriptor (U : util) (W : world) (argc : Z) (argv : list string) :
  Forall (parses U) (g_options (getopt W argc argv)) →
  snd (parse_args U W argc argv trans_zero) = parsed_trans U (g_options (getopt W argc argv)).
Proof.
  intros Hall. rewrite parse_args_checks by done. by repeat case_match.
Qed.

(** X12: of a repeated -t or -r the last one counts.  When all options
    parse, the channel [parse_args] leaves is the value of the last -t
    (of the last -r) on the command line. *)
Theorem last_channel_option_wins (U : util) (W : world) (argc : Z)
    (argv : list string) (pre post : list (ascii * string)) (c : ascii)
    (optarg : string) :
  let parsed := snd (parse_args U W argc argv trans_zero) in
  g_options (getopt W argc argv) = pre ++ (c, optarg) :: post →
  Forall (parses U) (pre ++ (c, optarg) :: post) →
  supplied c post = false →
  (c = "t"%char → input_channel parsed = snd (parse_int U c optarg))
  ∧ (c = "r"%char → output_channel parsed = snd (parse_int U c optarg)).
Proof.
  intros parsed Hg Hall Hpost. subst parsed.
  rewrite parse_args_descriptor by (by rewrite Hg). rewrite Hg.
  unfold parsed_trans. cbn [input_channel output_channel].
  split; intros ->; by apply last_int_decides.
Qed.

Lemma last_channel_option_witness :
  input_channel (snd (parse_args Sample.helpers Sample.device 7
                        ["demo"; "-t"; "3"; "-r"; "4"; "-t"; "5"] trans_zero)) = 5.
Proof.
  refine (proj1 (last_channel_option_wins Sample.helpers Sample.device 7
                   ["demo"; "-t"; "3"; "-r"; "4"; "-t"; "5"]
                   [("t"%char, "3"); ("r"%char, "4")] [] "t"%char "5" _ _ _) _).
  - reflexivity.
  - all_parse.
  - reflexivity.
  - reflexivity.
Defined.

(** ** More about the receive loop *)

(** X13: a receive that fails or brings nothing does not end the loop.
    When [axidma0read] returns zero or a negative value, the round prints
    the count line and no byte, and the loop goes on with the next
    receive: there is no way out of it and no cleanup. *)
Theorem failed_receive_is_not_fatal (W : world) (dev : axidma_dev_t)
    (trans : dma_transfer) (n k : nat) (rbuffer : buffer) (rec_len : Z)
    (data : list Z) :
  axidma0read W k = (rec_len, data) →
  rec_len ≤ 0 →
  receive_loop W dev trans (S n) k rbuffer
  = after [ Call_axidma0read dev trans rec_len;
            Fprintf stdout (nl +:+ "rec_len = 0x" +:+ printf_d rec_len +:+ nl) ]
          (receive_loop W dev trans n (S k) (store data rbuffer)).
Proof.
  intros Hread Hlen. cbn [receive_loop]. rewrite Hread.
  unfold hex_dump. replace (Z.to_nat rec_len) with 0%nat by lia. cbn [for_loop].
  by rewrite app_nil_r.
Qed.

Lemma failed_receive_witness :
  let W := Build_world Posix.getopt 7 (λ _, [2]) (λ _, [1]) (λ _, 0) (λ _, (-5, [])) 0
                       (λ _, 0) in
  receive_loop W 7 trans_zero 2 0 zero_buffer
  = after [ Call_axidma0read 7 trans_zero (-5);
            Fprintf stdout (nl +:+ "rec_len = 0x" +:+ printf_d (-5) +:+ nl) ]
          (receive_loop W 7 trans_zero 1 1 (store [] zero_buffer)).
Proof.
  intros W.
  apply (failed_receive_is_not_fatal W 7 trans_zero 1 0 zero_buffer (-5) []).
  - reflexivity.
  - lia.
Defined.

Lemma receive_loop_count (W : world) (dev : axidma_dev_t) (trans : dma_transfer)
    (n k : nat) (rbuffer : buffer) :
  valid_buffer rbuffer →
  (∀ j, fst (axidma0read W j) ≤ MAXLENGTH) →
  read_transfers (events (receive_loop W dev trans n k rbuffer)) = replicate n trans.
Proof.
  intros Hvalid Hcap. revert k rbuffer Hvalid.
  induction n as [|n IH]; intros k rbuffer Hvalid; cbn [receive_loop]; [done|].
  specialize (Hcap k). destruct (axidma0read W k) as [rec_len data]. cbn [fst] in Hcap.
  pose proof (store_valid data rbuffer Hvalid) as Hstore.
  destruct (hex_dump rec_len (store data rbuffer)) as [dump|] eqn:Ed.
  - rewrite events_after. unfold read_transfers in *. rewrite !omap_app.
    rewrite (IH _ _ Hstore). cbn [omap list_omap app replicate].
    assert (Hd : omap (λ e, match e with Call_axidma0read _ t _ => Some t | _ => None end)
                      dump = []).
    { pose proof (hex_dump_prints _ _ _ Ed) as Hp. clear -Hp.
      induction Hp as [|e evs He _ IH]; [done|]. by destruct e. }
    rewrite Hd. reflexivity.
  - rewrite hex_dump_lines in Ed by (destruct Hstore as [-> _]; lia). discriminate.
Qed.

(** X14: the receive task does not end by itself.  Once it reached its
    loop, and as long as no receive reports more bytes than the buffer
    holds, after any number n of rounds it has issued exactly n receives,
    all with the one descriptor the channel resolution left, has released
    nothing and is still in the loop. *)
Theorem receive_task_never_returns (U : util) (W : world) (argc : Z)
    (argv : list string) (n : nat) :
  let r := rapidio_taks_rec U W argc argv n in
  reaches_transfer U W argc argv →
  (∀ j, fst (axidma0read W j) ≤ MAXLENGTH) →
  out r = Running
  ∧ released (events r) = []
  ∧ closes (events r) = []
  ∧ ∃ trans,
      resolve_channels (snd (parse_args U W argc argv trans_zero))
        (axidma_get_dma_tx W (axidma_init W)) (axidma_get_dma_rx W (axidma_init W))
      = Some trans
      ∧ read_transfers (events r) = replicate n trans.
Proof.
  intros r Hr Hcap. subst r. unfold rapidio_taks_rec.
  destruct (task_cases U W argc argv
              (λ _ dev trans, receive_loop W dev trans n 0 zero_buffer))
    as [(_ & trans & Hres & ->)|[Hn _]]; [|done].
  rewrite out_after, events_after.
  split; [apply receive_loop_runs; [apply zero_buffer_valid | done]|].
  destruct (receive_loop_shows W (axidma_init W) trans n 0 zero_buffer)
    as (_ & _ & _ & I4 & _).
  pose proof (receive_loop_count W (axidma_init W) trans n 0 zero_buffer
                zero_buffer_valid Hcap) as Hcount.
  split; [|split].
  - unfold released in *. by rewrite omap_app, I4.
  - pose proof (receive_loop_no_close W (axidma_init W) trans n 0 zero_buffer) as Hloop.
    unfold closes in *. rewrite omap_app, Hloop. reflexivity.
  - exists trans. split; [done|].
    unfold read_transfers in *. by rewrite omap_app, Hcount.
Qed.

Lemma receive_task_never_returns_witness :
  out (rapidio_taks_rec Sample.helpers Sample.device_rec 0 [] 3) = Running
  ∧ read_transfers (events (rapidio_taks_rec Sample.helpers Sample.device_rec 0 [] 3))
    = replicate 3 (Build_dma_transfer 2 0 0 1 (-1)).
Proof.
  destruct (receive_task_never_returns Sample.helpers Sample.device_rec 0 [] 3)
    as (H1 & _ & _ & trans & Hres & Hreads).
  - split; [exists 0; split; [reflexivity | lia] | repeat split; discriminate].
  - intros j. unfold MAXLENGTH. cbn. lia.
  - split; [exact H1|]. injection Hres as <-. exact Hreads.
Defined.

(** A round that leaves the array stays undefined. *)
Lemma for_loop_dump_none (rbuffer : buffer) (n : nat) (i : Z) :
  for_loop n i (dump_byte rbuffer) None = None.
Proof. revert i. induction n as [|n IH]; intros i; cbn [for_loop]; [done | apply IH]. Qed.

Lemma hex_dump_outside (rec_len : Z) (rbuffer : buffer) :
  (length rbuffer < Z.to_nat rec_len)%nat → hex_dump rec_len rbuffer = None.
Proof.
  intros Hlen. unfold hex_dump.
  replace (Z.to_nat rec_len)
    with (length rbuffer + S (Z.to_nat rec_len - length rbuffer - 1))%nat by lia.
  rewrite for_loop_app.
  pose proof (hex_dump_lines (Z.of_nat (length rbuffer)) rbuffer) as H.
  unfold hex_dump in H. rewrite Nat2Z.id in H. rewrite H by lia.
  cbn [for_loop]. unfold dump_byte at 2. cbn [mbind option_bind].
  rewrite Z.add_0_l, Nat2Z.id.
  rewrite (lookup_ge_None_2 rbuffer (length rbuffer)) by lia.
  cbn [mbind option_bind]. apply for_loop_dump_none.
Qed.

(** X15: the loop trusts the length the receive reports.  A receive that
    returns more than 2048 makes the dump read [rbuffer] past its end:
    nothing between the receive and the dump compares the length with the
    size of the array. *)
Theorem oversized_receive_overruns_buffer (W : world) (dev : axidma_dev_t)
    (trans : dma_transfer) (n k : nat) (rbuffer : buffer) (rec_len : Z)
    (data : list Z) :
  valid_buffer rbuffer →
  axidma0read W k = (rec_len, data) →
  MAXLENGTH < rec_len →
  out (receive_loop W dev trans (S n) k rbuffer) = Undefined.
Proof.
  intros Hvalid Hread Hlen. cbn [receive_loop]. rewrite Hread.
  destruct (store_valid data rbuffer Hvalid) as [Hstore _].
  rewrite hex_dump_outside; [done|]. rewrite Hstore. unfold MAXLENGTH in *. lia.
Qed.

Lemma oversized_receive_witness :
  out (receive_loop
         (Build_world Posix.getopt 7 (λ _, [2]) (λ _, [1]) (λ _, 0) (λ _, (2049, [])) 0
                      (λ _, 0))
         7 trans_zero 1 0 zero_buffer) = Undefined.
Proof.
  refine (oversized_receive_overruns_buffer _ 7 trans_zero 0 0 zero_buffer 2049 []
            zero_buffer_valid _ _).
  - reflexivity.
  - unfold MAXLENGTH. lia.
Defined.

Lemma receive_loop_reads (W : world) (dev : axidma_dev_t) (trans : dma_transfer)
    (n k : nat) (rbuffer : buffer) (d : axidma_dev_t) (t : dma_transfer) (ret : Z) :
  In (Call_axidma0read d t ret) (events (receive_loop W dev trans n k rbuffer)) →
  d = dev ∧ t = trans.
Proof.
  revert k rbuffer. induction n as [|n IH]; intros k rbuffer; cbn [receive_loop]; [done|].
  destruct (axidma0read W k) as [rec_len data].
  destruct (hex_dump rec_len (store data rbuffer)) as [dump|] eqn:Ed.
  - rewrite events_after. intros Hin.
    apply in_app_or in Hin as [Hin|Hin]; [|by apply IH in Hin].
    apply in_app_or in Hin as [Hin|Hin].
    + cbn [In] in Hin. destruct Hin as [[= <- <- _]|[Hin|[]]]; [done | discriminate Hin].
    + pose proof (hex_dump_prints _ _ _ Ed) as Hp. rewrite Forall_forall in Hp.
      apply list_elem_of_In, Hp in Hin. discriminate Hin.
  - cbn [events In]. intros [[= <- <- _]|[Hin|[]]]; [done | discriminate Hin].
Qed.

(** X16: what the receives are given.  Every receive of the receive task
    is issued on the handle of its own [axidma_init], with the descriptor
    the channel resolution left: its input size is 0 and its output size
    is the one [parse_args] left, -1 unless -s or -o was given; the 2048
    that [main] writes into its descriptor is not written here. *)
Theorem receives_use_unsized_descriptor (U : util) (W : world) (argc : Z)
    (argv : list string) (n : nat) (dev : axidma_dev_t) (trans : dma_transfer)
    (ret : Z) :
  let parsed := snd (parse_args U W argc argv trans_zero) in
  In (Call_axidma0read dev trans ret) (events (rapidio_taks_rec U W argc argv n)) →
  dev = axidma_init W
  ∧ resolve_channels parsed (axidma_get_dma_tx W dev) (axidma_get_dma_rx W dev) = Some trans
  ∧ input_size trans = 0
  ∧ output_size trans = output_size parsed.
Proof.
  intros parsed Hin. unfold rapidio_taks_rec in Hin.
  destruct (task_cases U W argc argv
              (λ _ dev trans, receive_loop W dev trans n 0 zero_buffer))
    as [(_ & t & Hres & Hrun)|[_ (He & _)]].
  - rewrite Hrun, events_after in Hin.
    apply in_app_or in Hin as [Hin|Hin].
    { cbn [In] in Hin. repeat (destruct Hin as [Hin|Hin]; [discriminate Hin|]). done. }
    apply receive_loop_reads in Hin as [-> ->].
    split; [done|]. split; [exact Hres|].
    apply resolve_channels_keeps in Hres as (_ & K2 & K3).
    destruct (parse_args_keeps U W argc argv trans_zero) as (_ & Hsize).
    rewrite K2, K3, Hsize. done.
  - apply early_no_send in He as (_ & _ & _ & _ & He).
    apply He in Hin. discriminate Hin.
Qed.

Lemma receives_use_unsized_descriptor_witness :
  input_size (Build_dma_transfer 2 0 0 1 (-1)) = 0
  ∧ output_size (Build_dma_transfer 2 0 0 1 (-1))
    = output_size (snd (parse_args Sample.helpers Sample.device_rec 0 [] trans_zero)).
Proof.
  refine (proj2 (proj2 (receives_use_unsized_descriptor Sample.helpers Sample.device_rec
                          0 [] 1 9 (Build_dma_transfer 2 0 0 1 (-1)) 3 _))).
  vm_compute. do 6 right. left. reflexivity.
Defined.

(** ** Reading the dump back *)

Lemma untoken_token (b : Z) :
  0 ≤ b < 256 → untoken ("0x" +:+ printf_02x b +:+ " ") = Some b.
Proof.
  intros Hb.
  assert (Hall : forallb (λ n, match untoken ("0x" +:+ printf_02x (Z.of_nat n) +:+ " ") with
                               | Some v => v =? Z.of_nat n
                               | None => false
                               end) (seq 0 256) = true) by (vm_compute; reflexivity).
  rewrite forallb_forall in Hall.
  specialize (Hall (Z.to_nat b)). rewrite Z2Nat.id in Hall by lia.
  destruct (untoken ("0x" +:+ printf_02x b +:+ " ")) as [v|].
  - f_equal. apply Z.eqb_eq, Hall, in_seq. lia.
  - exfalso. assert (false = true); [|done]. apply Hall, in_seq. lia.
Qed.

Lemma undump_dump_lines (bytes : list Z) :
  Forall (λ x, 0 ≤ x < 256) bytes → undump (dump_lines bytes) = bytes.
Proof.
  induction bytes as [|b bytes IH] using rev_ind; intros Hall; [done|].
  apply Forall_app in Hall as [Hbytes Hb]. apply Forall_inv in Hb.
  rewrite dump_lines_snoc. unfold undump in *. rewrite !omap_app, IH by done.
  f_equal. unfold token. destruct (_ =? 0); cbn [omap list_omap app].
  all: change (untoken nl) with (@None Z); rewrite ?untoken_token by done; done.
Qed.

(** X17: the dump loses nothing.  For a receive of at most 2048 bytes
    the hex dump is printed in full, and reading its tokens back as hex
    numbers gives exactly the bytes received, in order. *)
Theorem hex_dump_reads_back (rec_len : Z) (rbuffer : buffer) :
  valid_buffer rbuffer →
  0 ≤ rec_len ≤ MAXLENGTH →
  ∃ dump, hex_dump rec_len rbuffer = Some dump
          ∧ undump dump = take (Z.to_nat rec_len) rbuffer.
Proof.
  intros [Hlen Hbytes] Hrec. unfold MAXLENGTH in *.
  exists (dump_lines (take (Z.to_nat rec_len) rbuffer)).
  split; [apply hex_dump_lines; lia|].
  apply undump_dump_lines. by apply Forall_take.
Qed.

Lemma hex_dump_reads_back_witness :
  ∃ dump, hex_dump 3 (store [161; 178; 195] zero_buffer) = Some dump
          ∧ undump dump = [161; 178; 195].
Proof.
  destruct (hex_dump_reads_back 3 (store [161; 178; 195] zero_buffer)) as (dump & H1 & H2).
  - apply store_valid, zero_buffer_valid.
  - unfold MAXLENGTH. lia.
  - exists dump. split; [exact H1|]. rewrite H2. vm_compute. reflexivity.
Defined.

(** ** Filling the send buffer again *)

(** X18: the fill loop writes the first 2000 bytes and nothing else, and
    running it again changes nothing: the copy of the loop in the receive
    task leaves the buffer the sends read from as it is, its last 48 bytes
    still as they were. *)
Theorem sbuffer_refill_changes_nothing (sbuffer : buffer) :
  (2000 ≤ length sbuffer)%nat →
  length (sbuffer_init sbuffer) = length sbuffer
  ∧ (∀ k, (2000 ≤ k)%nat → sbuffer_init sbuffer !! k = sbuffer !! k)
  ∧ sbuffer_init (sbuffer_init sbuffer) = sbuffer_init sbuffer.
Proof.
  intros Hlen. destruct (sbuffer_init_spec sbuffer Hlen) as (H1 & _ & H3).
  split; [done|]. split; [done|]. by apply sbuffer_init_twice.
Qed.

Lemma sbuffer_refill_witness :
  length (sbuffer_init zero_buffer) = length zero_buffer
  ∧ (∀ k, (2000 ≤ k)%nat → sbuffer_init zero_buffer !! k = zero_buffer !! k)
  ∧ sbuffer_init (sbuffer_init zero_buffer) = sbuffer_init zero_buffer.
Proof.
  apply (sbuffer_refill_changes_nothing zero_buffer).
  rewrite zero_buffer_length. lia.
Defined.
